(** * AndroidUtils: a shallow embedding of [src/common/AndroidUtils.ts]

    The development follows the TypeScript source function by function.
    JavaScript strings are modelled as [string] (sequences of 8-bit
    characters), numbers that the code only uses as integers as [Z],
    promises as a state-and-error monad over an abstract host (the process
    spawner, the file system and the clock), and JavaScript [Map]s as
    insertion-ordered association lists. *)

From Stdlib Require Import ZArith List Bool Ascii String Lia.
From Stdlib Require Import DecimalString Sorted Permutation.
Import ListNotations.

Open Scope string_scope.
Open Scope Z_scope.

(** ** JavaScript string primitives used by the source *)

Module Js.

(** [String.prototype.toLowerCase] on the ASCII range. *)
Definition lowerChar (c : ascii) : ascii :=
  let n := nat_of_ascii c in
  if andb (Nat.leb 65 n) (Nat.leb n 90) then ascii_of_nat (n + 32) else c.

Fixpoint toLowerCase (s : string) : string :=
  match s with
  | EmptyString => EmptyString
  | String c s' => String (lowerChar c) (toLowerCase s')
  end.

(** [s.startsWith(p)] *)
Definition startsWith (s p : string) : bool := String.prefix p s.

(** [s.includes(p)] *)
Fixpoint includes (s p : string) : bool :=
  orb (String.prefix p s)
      (match s with
       | EmptyString => false
       | String _ s' => includes s' p
       end).

(** [s.split(sep)] for a one-character separator. *)
Fixpoint split (sep : ascii) (s : string) : list string :=
  match s with
  | EmptyString => [EmptyString]
  | String c s' =>
      if Ascii.eqb c sep then EmptyString :: split sep s'
      else match split sep s' with
           | [] => [String c EmptyString]
           | x :: xs => String c x :: xs
           end
  end.

(** White space as recognised by [String.prototype.trim] (ASCII range). *)
Definition isWhite (c : ascii) : bool :=
  let n := nat_of_ascii c in
  orb (andb (Nat.leb 9 n) (Nat.leb n 13)) (Nat.eqb n 32).

Fixpoint trimStart (s : string) : string :=
  match s with
  | EmptyString => EmptyString
  | String c s' => if isWhite c then trimStart s' else s
  end.

Fixpoint trimEnd (s : string) : string :=
  match s with
  | EmptyString => EmptyString
  | String c s' =>
      match trimEnd s' with
      | EmptyString => if isWhite c then EmptyString else String c EmptyString
      | t => String c t
      end
  end.

Definition trim (s : string) : string := trimEnd (trimStart s).

(** [s.replace(/[_-]/gi, ' ')] *)
Fixpoint replaceSeparators (s : string) : string :=
  match s with
  | EmptyString => EmptyString
  | String c s' =>
      String (if orb (Ascii.eqb c "_") (Ascii.eqb c "-") then " "%char else c)
             (replaceSeparators s')
  end.

(** A string is truthy when it is not empty. *)
Definition truthy (s : string) : bool :=
  match s with EmptyString => false | _ => true end.

(** [String(n)] for an integer. *)
Definition ofNumber (n : Z) : string := NilZero.string_of_int (Z.to_int n).

Definition isDigit (c : ascii) : bool :=
  let n := nat_of_ascii c in andb (Nat.leb 48 n) (Nat.leb n 57).

(** Value of a run of leading decimal digits, most significant first. *)
Fixpoint digitsValue (acc : Z) (s : string) : Z :=
  match s with
  | EmptyString => acc
  | String c s' =>
      if isDigit c
      then digitsValue (10 * acc + (Z.of_nat (nat_of_ascii c) - 48)) s'
      else acc
  end.

(** [s.match(/\d+/)] followed by [Number] on the match: the first maximal
    run of digits, if there is one. *)
Fixpoint firstInteger (s : string) : option Z :=
  match s with
  | EmptyString => None
  | String c s' => if isDigit c then Some (digitsValue 0 s) else firstInteger s'
  end.

(** Comparison of strings by code units, as [Array.prototype.sort] without
    a comparator does: [true] when [a] sorts strictly before [b]. *)
Fixpoint ltb (a b : string) : bool :=
  match a, b with
  | EmptyString, EmptyString => false
  | EmptyString, String _ _ => true
  | String _ _, EmptyString => false
  | String x a', String y b' =>
      if Nat.ltb (nat_of_ascii x) (nat_of_ascii y) then true
      else if Nat.ltb (nat_of_ascii y) (nat_of_ascii x) then false
      else ltb a' b'
  end.

End Js.

(** ** Settled promises and rejection reasons *)

Inductive Err :=
| SfdxError (message : string)
| HostError (text : string).

Inductive Settled (A : Type) :=
| Resolved (value : A)
| Rejected (reason : Err).

Arguments Resolved {A} _.
Arguments Rejected {A} _.

(** ** Data of the repository that lives outside this file

    [Version], [AndroidPackage], [AndroidPackages] and
    [AndroidVirtualDevice] are imported by the source from [./Common] and
    [./AndroidTypes]; only the fields and methods that [AndroidUtils] uses
    appear here, and the methods are taken as parameters. *)

Section Types.

Variable Version : Type.

Record AndroidPackage := mkAndroidPackage {
  path : string;
  version : Version;
  description : string
}.

Record AndroidPackages := mkAndroidPackages {
  platforms : list AndroidPackage;
  systemImages : list AndroidPackage
}.

Record AndroidVirtualDevice := mkAndroidVirtualDevice {
  name : string;
  target : string;
  apiLevel : Version
}.

(** Methods of the imported classes; those that may throw return a
    [Settled] value. *)
Record Imports := mkImports {
  Version_from : string -> Settled Version;
  compare : Version -> Version -> Z;
  same : Version -> Version -> bool;
  sameOrNewer : Version -> Version -> bool;
  platformAPI : AndroidPackage -> string;
  isEmpty : AndroidPackages -> bool;
  parseRawPackagesString : string -> Settled AndroidPackages;
  parseRawString : string -> Settled (list AndroidVirtualDevice)
}.

End Types.

Arguments path {Version} _.
Arguments version {Version} _.
Arguments description {Version} _.
Arguments platforms {Version} _.
Arguments systemImages {Version} _.
Arguments name {Version} _.
Arguments target {Version} _.
Arguments apiLevel {Version} _.
Arguments mkAndroidPackage {Version} _ _ _.
Arguments mkAndroidPackages {Version} _ _.
Arguments mkAndroidVirtualDevice {Version} _ _ _.
Arguments Version_from {Version} _ _.
Arguments compare {Version} _ _ _.
Arguments same {Version} _ _ _.
Arguments sameOrNewer {Version} _ _ _.
Arguments platformAPI {Version} _ _.
Arguments isEmpty {Version} _ _.
Arguments parseRawPackagesString {Version} _ _.
Arguments parseRawString {Version} _ _.

Inductive AndroidSDKRootSource := androidHome | androidSDKRoot.

Record AndroidSDKRoot := mkAndroidSDKRoot {
  rootLocation : string;
  rootSource : AndroidSDKRootSource
}.

(** ** The host: process execution, files and time

    [CommonUtils.executeCommandAsync] either resolves with the two output
    streams or rejects; [error] is the text that the rejection value
    converts to when it is concatenated to a string. *)

Inductive ExecResult :=
| ExecResolved (stdout stderr : string)
| ExecRejected (error : string).

Record Host (W : Type) := mkHost {
  runCommand : string -> W -> ExecResult * W;
  spawnDetached : string -> W -> W;
  readFileSync : string -> W -> Settled string;
  writeFileSync : string -> string -> W -> Settled unit * W;
  sleep : Z -> W -> W;
  (** whether the timer of [CommonUtils.promiseWithTimeout] fires before the
      raced promise settles, given the worlds at its start and at its end *)
  expired : Z -> W -> W -> bool
}.

Arguments runCommand {W} _ _ _.
Arguments spawnDetached {W} _ _ _.
Arguments readFileSync {W} _ _ _.
Arguments writeFileSync {W} _ _ _ _.
Arguments sleep {W} _ _ _.
Arguments expired {W} _ _ _ _.

(** [PlatformConfig.androidConfig()], the memoised tool locations of
    [AndroidUtils], the platform and the library functions whose result
    depends on it. *)
Record Settings := mkSettings {
  AdbNumRetryAttempts : Z;
  AdbRetryAttemptDelay : Z;
  defaultAdbPort : Z;
  deviceReadinessWaitTime : Z;
  minSupportedRuntime : string;
  supportedArchitectures : list string;
  supportedImages : list string;
  getAndroidSdkRoot : option AndroidSDKRoot;
  getAdbShellCommand : string;
  getEmulatorCommand : string;
  getAvdManagerCommand : string;
  getSdkManagerCommand : string;
  isWindows : bool;
  (** [path.join(a, b)] *)
  pathJoin : string -> string -> string;
  (** location of [config.ini] of an AVD, after [resolveUserHomePath] *)
  configIniPath : string -> string;
  (** [s.match(pattern) !== null] for a pattern given as a string *)
  regexMatches : string -> string -> bool;
  (** [util.format(messages.getMessage(key), arg)] *)
  formatMessage : string -> string -> string
}.

(** What the program does to the host, in order. *)
Inductive Event :=
| Exec (command : string)
| Spawn (command : string)
| Sleep (ms : Z)
| WriteFile (file content : string).

Record Output := mkOutput { stdout : string; stderr : string }.

(** ** Arrays and maps *)

(** [Array.prototype.sort(cmp)] is stable (Node 12 and later, which
    [package.json] requires): an element is placed in front of the first
    element that it does not sort after. *)
Fixpoint insertSorted {A} (cmp : A -> A -> Z) (x : A) (l : list A) : list A :=
  match l with
  | [] => [x]
  | y :: ys => if cmp x y <=? 0 then x :: l else y :: insertSorted cmp x ys
  end.

Definition Array_sort {A} (cmp : A -> A -> Z) (l : list A) : list A :=
  fold_right (insertSorted cmp) [] l.

(** The comparison of [Array.prototype.sort()] without an argument: the
    elements are converted to strings and compared by code units. *)
Definition defaultCompare (a b : Z) : Z :=
  let x := Js.ofNumber a in
  let y := Js.ofNumber b in
  if Js.ltb x y then -1 else if Js.ltb y x then 1 else 0.

(** The first result of a [for ... of] loop whose body returns from the
    enclosing function. *)
Fixpoint firstSome {A B} (f : A -> option B) (l : list A) : option B :=
  match l with
  | [] => None
  | x :: rest =>
      match f x with
      | Some b => Some b
      | None => firstSome f rest
      end
  end.

(** A [Map<string, string>]: the entries in insertion order. *)
Definition JsMap : Type := list (string * string).

Fixpoint Map_get (key : string) (m : JsMap) : option string :=
  match m with
  | [] => None
  | (k, v) :: rest => if String.eqb k key then Some v else Map_get key rest
  end.

(** [m.set(key, value)]: an existing key keeps its place. *)
Fixpoint Map_set (key value : string) (m : JsMap) : JsMap :=
  match m with
  | [] => [(key, value)]
  | (k, v) :: rest =>
      if String.eqb k key then (k, value) :: rest
      else (k, v) :: Map_set key value rest
  end.

Definition Map_size (m : JsMap) : Z := Z.of_nat (List.length m).

Definition newlineChar : ascii := "010"%char.

Definition newline : string := String newlineChar EmptyString.

(** [s.split('\n')[0]] *)
Definition firstLine (s : string) : string := hd EmptyString (Js.split newlineChar s).

(** ** Concrete hosts and imports, on which the model can be run *)

Module Demo.

(** Modelled from the spec: the class [Version] of [./Common], which is not
    among the sources.  A version has a major component and optional minor
    and patch components; [compare] reads a missing component as zero,
    [same] ignores it, and [sameOrNewer] is [compare >= 0]. *)
Record Version := mkVersion { major : Z; minor : option Z; patch : option Z }.

Definition orZero (o : option Z) : Z :=
  match o with Some x => x | None => 0 end.

Definition cmpZ (x y : Z) : Z :=
  match x ?= y with Lt => -1 | Eq => 0 | Gt => 1 end.

Definition compare (a b : Version) : Z :=
  match major a ?= major b with
  | Lt => -1
  | Gt => 1
  | Eq =>
      match orZero (minor a) ?= orZero (minor b) with
      | Lt => -1
      | Gt => 1
      | Eq => cmpZ (orZero (patch a)) (orZero (patch b))
      end
  end.

Definition sameComponent (x y : option Z) : bool :=
  match x, y with
  | Some a, Some b => a =? b
  | _, _ => true
  end.

Definition same (a b : Version) : bool :=
  andb (major a =? major b)
       (andb (sameComponent (minor a) (minor b)) (sameComponent (patch a) (patch b))).

Definition sameOrNewer (a b : Version) : bool := 0 <=? compare a b.

(** A component is a non-empty run of digits. *)
Definition component (s : string) : option Z :=
  match s with
  | EmptyString => None
  | _ => if forallb Js.isDigit (list_ascii_of_string s)
         then Some (Js.digitsValue 0 s) else None
  end.

Definition from (input : string) : Settled Version :=
  match map component (Js.split "."%char (Js.trim input)) with
  | [Some a] => Resolved (mkVersion a None None)
  | [Some a; Some b] => Resolved (mkVersion a (Some b) None)
  | [Some a; Some b; Some c] => Resolved (mkVersion a (Some b) (Some c))
  | _ => Rejected (HostError ("Invalid version string: " ++ input))
  end.

(** Modelled from the spec: the platform API of a package is the second
    component of its semicolon-delimited path, and an inventory is empty
    when it has neither platforms nor system images.  The two parsers of
    [./AndroidTypes] are replaced by fixed results. *)
Definition imports (inventory : AndroidPackages Version)
    (devices : list (AndroidVirtualDevice Version)) : Imports Version :=
  mkImports Version from compare same sameOrNewer
    (fun pkg => nth 1 (Js.split ";"%char (path pkg)) EmptyString)
    (fun p => match platforms p, systemImages p with [], [] => true | _, _ => false end)
    (fun _ => Resolved inventory)
    (fun _ => Resolved devices).

(** A host whose world is the number of commands run so far; a command is
    answered from a table, files are read from a table, and no timer ever
    fires. *)
Definition scripted (reply : string -> nat -> ExecResult)
    (files : string -> Settled string) : Host nat :=
  mkHost nat
    (fun command w => (reply command w, S w))
    (fun _ w => w)
    (fun file _ => files file)
    (fun _ _ w => (Resolved tt, w))
    (fun _ w => w)
    (fun _ _ _ => false).

Definition noFile (file : string) : Settled string :=
  Rejected (HostError ("ENOENT: no such file or directory, open " ++ file)).

(** A host whose world is a file store. *)
Definition disk : Host JsMap :=
  mkHost JsMap
    (fun _ w => (ExecResolved EmptyString EmptyString, w))
    (fun _ w => w)
    (fun file w => match Map_get file w with Some c => Resolved c | None => noFile file end)
    (fun file content w => (Resolved tt, Map_set file content w))
    (fun _ w => w)
    (fun _ _ _ => false).

(** A pattern [(a;b;c)] without other special characters matches the
    strings that contain [a;b;c]. *)
Definition groupMatches (s pattern : string) : bool :=
  match pattern with
  | String _ rest => Js.includes s (substring 0 (String.length rest - 1) rest)
  | EmptyString => true
  end.

Definition settings : Settings :=
  mkSettings 3 1000 5572 120000 "23"
    ["x86_64"; "x86"] ["google_apis"; "default"]
    (Some (mkAndroidSDKRoot "/sdk" androidHome))
    "/sdk/platform-tools/adb" "/sdk/emulator/emulator"
    "/sdk/cmdline-tools/latest/bin/avdmanager" "/sdk/cmdline-tools/latest/bin/sdkmanager"
    false
    (fun a b => a ++ "/" ++ b)
    (fun emulatorName => "/home/.android/avd/" ++ emulatorName ++ ".avd/config.ini")
    groupMatches
    (fun key arg => key ++ " " ++ arg).

(** An empty inventory: the value of [new AndroidPackages()]. *)
Definition emptyInventory : AndroidPackages Version := mkAndroidPackages [] [].

(** A device that answers every command with an error that names the
    number of commands run before it. *)
Definition alwaysFailing : Host nat :=
  scripted
    (fun _ w => ExecResolved ("error: attempt " ++ Js.ofNumber (Z.of_nat w)) EmptyString)
    noFile.

(** A host that answers the commands of a table and prints nothing for
    any other command. *)
Fixpoint answer (table : list (string * string)) (command : string) : ExecResult :=
  match table with
  | [] => ExecResolved EmptyString EmptyString
  | (c, out) :: rest =>
      if String.eqb command c then ExecResolved out EmptyString else answer rest command
  end.

Definition answering (table : list (string * string))
    (files : string -> Settled string) : Host nat :=
  scripted (fun command _ => answer table command) files.

Definition tab : string := String "009"%char EmptyString.

(** What [adb devices] prints when emulators run on the given ports. *)
Definition devicesListing (ports : list Z) : string :=
  "List of devices attached" ++ newline
  ++ concat EmptyString
       (map (fun p => "emulator-" ++ Js.ofNumber p ++ tab ++ "device" ++ newline) ports)
  ++ newline.

Definition attached (ports : list Z) : Host nat :=
  answering [(getAdbShellCommand settings ++ " devices", devicesListing ports)] noFile.

Definition api (level : Z) : Version := mkVersion level None None.

Definition platform (level : Z) (description : string) : AndroidPackage Version :=
  mkAndroidPackage ("platforms;android-" ++ Js.ofNumber level) (api level) description.

Definition systemImage (level : Z) (image architecture : string) : AndroidPackage Version :=
  mkAndroidPackage
    ("system-images;android-" ++ Js.ofNumber level ++ ";" ++ image ++ ";" ++ architecture)
    (api level) "System Image".

(** An inventory with platforms 29, 31, 30, 22 and a second entry for 31;
    platform 28 has no system image and platform 22 is older than the
    minimum. *)
Definition inventory : AndroidPackages Version :=
  mkAndroidPackages
    [platform 29 "Android SDK Platform 29"; platform 31 "Android SDK Platform 31";
     platform 28 "Android SDK Platform 28"; platform 30 "Android SDK Platform 30";
     platform 22 "Android SDK Platform 22"; platform 31 "Android SDK Platform 31, rev 2"]
    [systemImage 29 "google_apis" "x86_64"; systemImage 30 "default" "x86";
     systemImage 31 "google_apis" "x86"; systemImage 22 "default" "x86"].

(** A file system with the files of a table. *)
Definition files (table : list (string * string)) (file : string) : Settled string :=
  match Map_get file table with
  | Some content => Resolved content
  | None => noFile file
  end.

(** Two virtual devices are installed. *)
Definition twoDevices : Host nat :=
  answering
    [(getEmulatorCommand settings ++ " -list-avds",
      "Pixel_XL" ++ newline ++ "Nexus_6" ++ newline)]
    noFile.

Definition onPixel (command : string) : string :=
  getAdbShellCommand settings ++ " -s emulator-5554 " ++ command.

(** The virtual device [Pixel_XL] of API level 30 runs on port 5554 and
    has been launched with the given parameters; [avbctl] reports the given
    states of verification and verity. *)
Definition pixel (launchParams verification verity : string) : Host nat :=
  answering
    [(getEmulatorCommand settings ++ " -list-avds",
      "Pixel_XL" ++ newline ++ "Nexus_6" ++ newline);
     (getAdbShellCommand settings ++ " devices", devicesListing [5554]);
     (getAvdManagerCommand settings ++ " list avd", "Available Android Virtual Devices:");
     (onPixel "emu avd name", "Pixel_XL" ++ newline ++ "OK");
     (onPixel "emu avd path", "/avd/Pixel_XL.avd" ++ newline ++ "OK");
     (onPixel "shell avbctl get-verification", verification);
     (onPixel "shell avbctl get-verity", verity)]
    (files [("/avd/Pixel_XL.avd/emu-launch-params.txt", launchParams)]).

Definition pixelDevices : list (AndroidVirtualDevice Version) :=
  [mkAndroidVirtualDevice "Nexus_6" "Google APIs" (api 28);
   mkAndroidVirtualDevice "Pixel_XL" "Google APIs" (api 30)].

(** A device that is offline for the first two commands. *)
Definition flaky : Host nat :=
  scripted
    (fun _ w => if Nat.ltb w 2 then ExecResolved EmptyString "error: device offline"
                else ExecResolved "ready" EmptyString)
    noFile.

(** A device whose first command exits normally with a complaint in upper
    case on the standard error, and whose other commands exit with a
    failure that does not carry the marker. *)
Definition moody : Host nat :=
  scripted
    (fun _ w => if Nat.eqb w 0 then ExecResolved EmptyString "ERROR: device offline"
                else ExecRejected "Command failed with exit code 1")
    noFile.

(** A device whose standard error ends with the first letters of the
    marker and whose standard output begins with the others. *)
Definition straddling : Host nat :=
  scripted (fun _ _ => ExecResolved "or: device offline" "err") noFile.

Definition oldPixelDevices : list (AndroidVirtualDevice Version) :=
  [mkAndroidVirtualDevice "Pixel_XL" "Google APIs" (api 28)].

(** The configuration of the virtual device [Nexus_6] names a device
    profile for which no skin is renamed. *)
Definition nexusConfigured : Host nat :=
  answering []
    (files [(configIniPath settings "Nexus_6",
             "hw.device.name=nexus_6" ++ newline ++ "hw.keyboard=no" ++ newline)]).

(** The configuration of the virtual device [Pixel_XL] names one of the
    two device profiles whose skin is renamed. *)
Definition pixelConfigured : Host nat :=
  answering []
    (files [(configIniPath settings "Pixel_XL",
             "hw.device.name=pixel_xl" ++ newline ++ "hw.keyboard=no" ++ newline)]).

End Demo.

(** A [LaunchArgument] of [./PreviewConfigFile]. *)
Record LaunchArgument := mkLaunchArgument { argName : string; argValue : string }.

(** The constants of [PreviewUtils] that [launchNativeApp] uses. *)
Record PreviewPrefixes := mkPreviewPrefixes {
  COMPONENT_NAME_ARG_PREFIX : string;
  PROJECT_DIR_ARG_PREFIX : string;
  SERVER_ADDRESS_PREFIX : string;
  SERVER_PORT_PREFIX : string
}.

Definition backslash : ascii := "092"%char.

(** [dirPath.replace(/[\\]+/g, '/')]: every run of backslashes becomes one
    slash. *)
Fixpoint convertToUnixPath (dirPath : string) : string :=
  match dirPath with
  | EmptyString => EmptyString
  | String c rest =>
      if Ascii.eqb c backslash
      then match rest with
           | String c' _ =>
               if Ascii.eqb c' backslash then convertToUnixPath rest
               else String "/"%char (convertToUnixPath rest)
           | EmptyString => String "/"%char EmptyString
           end
      else String c (convertToUnixPath rest)
  end.

Section Model.

Context {W Version : Type}.
Variable host : Host W.
Variable lib : Imports Version.
Variable cfg : Settings.

(** The static fields of [AndroidUtils] that change while the program runs,
    together with the state of the host. *)
Record State := mkState {
  world : W;
  packageCache : AndroidPackages Version
}.

Definition Promise (A : Type) : Type := State -> Settled A * State * list Event.

Definition resolve {A} (a : A) : Promise A := fun s => (Resolved a, s, []).

Definition reject {A} (e : Err) : Promise A := fun s => (Rejected e, s, []).

(** [p.then(f)], and [await p] followed by the rest of an async body. *)
Definition andThen {A B} (p : Promise A) (f : A -> Promise B) : Promise B :=
  fun s =>
    match p s with
    | (Resolved a, s1, t1) =>
        match f a s1 with (r, s2, t2) => (r, s2, (t1 ++ t2)%list) end
    | (Rejected e, s1, t1) => (Rejected e, s1, t1)
    end.

(** [p.catch(h)], and [try { await p } catch (e) { h }]. *)
Definition catch {A} (p : Promise A) (h : Err -> Promise A) : Promise A :=
  fun s =>
    match p s with
    | (Resolved a, s1, t1) => (Resolved a, s1, t1)
    | (Rejected e, s1, t1) =>
        match h e s1 with (r, s2, t2) => (r, s2, (t1 ++ t2)%list) end
    end.

Notation "x <- p ;; q" := (andThen p (fun x => q))
  (at level 61, p at next level, right associativity).
Notation "p ;;; q" := (andThen p (fun _ => q))
  (at level 61, right associativity).

(** Text of a rejection reason when it is interpolated into a string. *)
Definition errText (e : Err) : string :=
  match e with
  | SfdxError m => m
  | HostError t => t
  end.

(** One call of the host's command runner, settled either way. *)
Definition settle (command : string) : Promise ExecResult :=
  fun s =>
    match runCommand host command (world s) with
    | (r, w) => (Resolved r, mkState w (packageCache s), [Exec command])
    end.

(** [CommonUtils.executeCommandAsync] *)
Definition executeCommandAsync (command : string) : Promise Output :=
  r <- settle command ;;
  match r with
  | ExecResolved out err => resolve (mkOutput out err)
  | ExecRejected e => reject (HostError e)
  end.

(** [CommonUtils.delay] *)
Definition delay (ms : Z) : Promise unit :=
  fun s => (Resolved tt, mkState (sleep host ms (world s)) (packageCache s), [Sleep ms]).

(** [CommonUtils.promiseWithTimeout]: the promise raced against a timer. *)
Definition promiseWithTimeout {A} (timeout : Z) (p : Promise A) (message : string)
  : Promise A :=
  fun s =>
    match p s with
    | (r, s1, t1) =>
        if expired host timeout (world s) (world s1)
        then (Rejected (SfdxError message), s1, t1)
        else (r, s1, t1)
    end.

(** *** executeAdbCommandWithRetry *)

Definition errorMarker : string := "error:".

(** The buffer [allOutput] of one attempt. *)
Definition gatherOutput (r : ExecResult) : string :=
  let '(err, result) :=
    match r with
    | ExecResolved out e => (EmptyString, mkOutput out e)
    | ExecRejected e => (e, mkOutput EmptyString EmptyString)
    end in
  (if Js.truthy err then err else EmptyString)
  ++ (if Js.truthy (stderr result) then newline ++ stderr result else EmptyString)
  ++ (if Js.truthy (stdout result) then newline ++ stdout result else EmptyString).

(** [result.stdout] after the attempt. *)
Definition attemptStdout (r : ExecResult) : string :=
  match r with
  | ExecResolved out _ => out
  | ExecRejected _ => EmptyString
  end.

Definition reportsError (allOutput : string) : bool :=
  andb (Js.truthy allOutput) (Js.includes (Js.toLowerCase allOutput) errorMarker).

(** The [for (let i = 0; i <= numRetries; i++)] loop; [remaining] is the
    number of iterations that are still to run, [numRetries - i + 1]. *)
Fixpoint retryLoop (adbCmd : string) (numRetries retryDelay : Z)
    (remaining : nat) (i : Z) (allOutput : string) : Promise string :=
  match remaining with
  | O => reject (SfdxError allOutput)
  | S k =>
      r <- settle adbCmd ;;
      let allOutput := gatherOutput r in
      if reportsError allOutput
      then (if i <? numRetries then delay retryDelay else resolve tt) ;;;
           retryLoop adbCmd numRetries retryDelay k (i + 1) allOutput
      else resolve (attemptStdout r)
  end.

Definition adbCommandLine (command : string) (portNumber : Z) : string :=
  getAdbShellCommand cfg ++ " -s emulator-" ++ Js.ofNumber portNumber ++ " " ++ command.

Definition executeAdbCommandWithRetry (command : string) (portNumber : Z)
    (numRetries retryDelay : Z) : Promise string :=
  retryLoop (adbCommandLine command portNumber) numRetries retryDelay
            (Z.to_nat (numRetries + 1)) 0 EmptyString.

(** The call with both optional arguments left out. *)
Definition executeAdbCommandWithRetry' (command : string) (portNumber : Z)
  : Promise string :=
  executeAdbCommandWithRetry command portNumber
    (AdbNumRetryAttempts cfg) (AdbRetryAttemptDelay cfg).

Definition executeAdbCommand (command : string) (portNumber : Z) : Promise string :=
  executeAdbCommandWithRetry command portNumber 0 (AdbRetryAttemptDelay cfg).

(** A synchronous call that may throw, inside an async body. *)
Definition liftSettled {A} (r : Settled A) : Promise A := fun s => (r, s, []).

(** [fs.readFileSync(file, 'utf8')] *)
Definition readFile (file : string) : Promise string :=
  fun s => (readFileSync host file (world s), s, []).

(** [childProcess.spawn(command, { detached: true, ... })] *)
Definition spawn (command : string) : Promise unit :=
  fun s => (Resolved tt, mkState (spawnDetached host command (world s)) (packageCache s),
            [Spawn command]).

(** *** The ports in use *)

(** The callback of [map] in [getAllCurrentlyUsedAdbPorts]. *)
Definition portOfLine (value : string) : Z :=
  match Js.firstInteger value with
  | Some n => n
  | None => 0
  end.

Definition parsePorts (out : string) : list Z :=
  map portOfLine
      (filter (fun avd => Js.startsWith (Js.toLowerCase avd) "emulator")
              (Js.split newlineChar out)).

Definition getAllCurrentlyUsedAdbPorts : Promise (list Z) :=
  result <- executeCommandAsync (getAdbShellCommand cfg ++ " devices") ;;
  resolve (if Js.truthy (stdout result) then parsePorts (stdout result) else []).

(** [ports.length > 0 ? ports.sort().reverse()[0] + 2 : defaultAdbPort];
    the head of a non-empty array always exists, so the default of [hd] is
    never used. *)
Definition nextPort (ports : list Z) : Z :=
  if 0 <? Z.of_nat (List.length ports)
  then hd 0 (rev (Array_sort defaultCompare ports)) + 2
  else defaultAdbPort cfg.

Definition getNextAvailableAdbPort : Promise Z :=
  ports <- getAllCurrentlyUsedAdbPorts ;;
  resolve (nextPort ports).

Definition fetchEmulatorNameFromPort (portNumber : Z) : Promise string :=
  result <- executeAdbCommand "emu avd name" portNumber ;;
  resolve (Js.trim (firstLine result)).

(** The [for (const port of ports)] loop of [emulatorHasPort]. *)
Fixpoint findPort (emulatorName : string) (ports : list Z) : Promise (option Z) :=
  match ports with
  | [] => resolve None
  | port :: rest =>
      name <- fetchEmulatorNameFromPort port ;;
      if String.eqb name emulatorName then resolve (Some port)
      else findPort emulatorName rest
  end.

Definition emulatorHasPort (emulatorName : string) : Promise (option Z) :=
  catch (ports <- getAllCurrentlyUsedAdbPorts ;; findPort emulatorName ports)
        (fun _ => resolve None).

Definition isEmulatorSystemWritable (portNumber : Z) : Promise bool :=
  catch (out <- executeAdbCommand "emu avd path" portNumber ;;
         let emuPath := Js.trim (firstLine out) in
         let paramFile := pathJoin cfg emuPath "emu-launch-params.txt" in
         launchParams <- readFile paramFile ;;
         resolve (Js.includes launchParams "-writable-system"))
        (fun _ => resolve false).

(** *** The virtual devices *)

(** [name.replace(/[_-]/gi, ' ').trim()] *)
Definition displayName (s : string) : string := Js.trim (Js.replaceSeparators s).

(** The [for (const avd of listOfAVDs)] loop of [resolveEmulatorImage]. *)
Fixpoint findAvd (emulatorName : string) (listOfAVDs : list string) : option string :=
  match listOfAVDs with
  | [] => None
  | avd :: rest =>
      if orb (String.eqb avd emulatorName)
             (String.eqb (displayName avd) (displayName emulatorName))
      then Some (Js.trim avd)
      else findAvd emulatorName rest
  end.

Definition resolveEmulatorImage (emulatorName : string) : Promise (option string) :=
  catch (result <- executeCommandAsync (getEmulatorCommand cfg ++ " -list-avds") ;;
         resolve (findAvd emulatorName (Js.split newlineChar (stdout result))))
        (fun _ => resolve None).

Definition fetchEmulators : Promise (list (AndroidVirtualDevice Version)) :=
  catch (result <- executeCommandAsync (getAvdManagerCommand cfg ++ " list avd") ;;
         if andb (Js.truthy (stdout result))
                 (0 <? Z.of_nat (String.length (stdout result)))
         then liftSettled (parseRawString lib (stdout result))
         else resolve [])
        (fun _ => resolve []).

Definition fetchEmulator (emulatorName : string)
  : Promise (option (AndroidVirtualDevice Version)) :=
  resolvedEmulator <- resolveEmulatorImage emulatorName ;;
  match resolvedEmulator with
  | None => resolve None
  | Some resolved =>
      if negb (Js.truthy resolved) then resolve None
      else
        emulators <- fetchEmulators ;;
        resolve (find (fun emulator => String.eqb (name emulator) resolved) emulators)
  end.

Definition hasEmulator (emulatorName : string) : Promise bool :=
  resolvedEmulator <- resolveEmulatorImage emulatorName ;;
  resolve (match resolvedEmulator with Some _ => true | None => false end).

(** *** The life cycle of an emulator *)

Definition doubleQuote : string := String "034"%char EmptyString.

Definition bootCompletedCommand : string :=
  let quote := if isWindows cfg then doubleQuote else "'" in
  "wait-for-device shell " ++ quote
  ++ "while [[ -z $(getprop sys.boot_completed) ]]; do sleep 1; done;" ++ quote.

Definition waitUntilDeviceIsReady (portNumber : Z) : Promise unit :=
  promiseWithTimeout (deviceReadinessWaitTime cfg)
    (executeAdbCommand bootCompletedCommand portNumber)
    (formatMessage cfg "bootTimeOut" ("emulator-" ++ Js.ofNumber portNumber)) ;;;
  resolve tt.

Definition poweredOffCommand (portNumber : Z) : string :=
  if isWindows cfg
  then "powershell -Command " ++ doubleQuote
       ++ "while($(adb devices | findstr emulator-" ++ Js.ofNumber portNumber
       ++ ")){ Start-Sleep -s 1 }" ++ doubleQuote
  else "while [[ -n $(adb devices | grep emulator-" ++ Js.ofNumber portNumber
       ++ ") ]]; do sleep 1; done;".

Definition waitUntilDeviceIsPoweredOff (portNumber : Z) : Promise unit :=
  promiseWithTimeout (deviceReadinessWaitTime cfg)
    (executeCommandAsync (poweredOffCommand portNumber))
    (formatMessage cfg "powerOffTimeOut" ("emulator-" ++ Js.ofNumber portNumber)) ;;;
  delay 5000.

Definition stopEmulator (portNumber : Z) (waitForPowerOff : bool) : Promise unit :=
  executeAdbCommand "shell reboot -p" portNumber ;;;
  if waitForPowerOff then waitUntilDeviceIsPoweredOff portNumber else resolve tt.

Definition rebootEmulator (portNumber : Z) (waitForBoot : bool) : Promise unit :=
  executeAdbCommand "shell reboot" portNumber ;;;
  if waitForBoot then waitUntilDeviceIsReady portNumber else resolve tt.

Definition emulatorLaunchCommand (resolvedEmulatorName : string)
    (resolvedPortNumber : Z) (writable : bool) : string :=
  getEmulatorCommand cfg ++ " @" ++ resolvedEmulatorName ++ " -port "
  ++ Js.ofNumber resolvedPortNumber
  ++ (if writable then " -writable-system" else EmptyString).

(** The part of [startEmulator] that follows the early return: the
    emulator process is spawned and, on request, awaited. *)
Definition launch (resolvedEmulatorName : string) (resolvedPortNumber : Z)
    (writable waitForBoot : bool) : Promise Z :=
  spawn (emulatorLaunchCommand resolvedEmulatorName resolvedPortNumber writable) ;;;
  (if waitForBoot then waitUntilDeviceIsReady resolvedPortNumber else resolve tt) ;;;
  resolve resolvedPortNumber.

(** [port ? port : ...]: [null] and [0] are falsy. *)
Definition truthyPort (port : option Z) : bool :=
  match port with
  | Some p => negb (p =? 0)
  | None => false
  end.

(** [resolvedPortNumber === port] *)
Definition samePort (resolvedPortNumber : Z) (port : option Z) : bool :=
  match port with
  | Some p => resolvedPortNumber =? p
  | None => false
  end.

Definition startEmulator (emulatorName : string) (writable waitForBoot : bool)
  : Promise Z :=
  resolvedEmulator <- resolveEmulatorImage emulatorName ;;
  match resolvedEmulator with
  | None => reject (SfdxError ("Invalid emulator: " ++ emulatorName))
  | Some resolvedEmulatorName =>
      port <- emulatorHasPort resolvedEmulatorName ;;
      resolvedPortNumber <-
        (if truthyPort port
         then resolve (match port with Some p => p | None => 0 end)
         else getNextAvailableAdbPort) ;;
      if samePort resolvedPortNumber port
      then
        isWritable <- isEmulatorSystemWritable resolvedPortNumber ;;
        if orb (negb writable) isWritable
        then resolve resolvedPortNumber
        else
          stopEmulator resolvedPortNumber true ;;;
          launch resolvedEmulatorName resolvedPortNumber writable waitForBoot
      else launch resolvedEmulatorName resolvedPortNumber writable waitForBoot
  end.

(** The steps of [mountAsRootWritableSystem] for a device of API level 29
    or newer. *)
Definition disableVerifiedBoot (portNumber : Z) : Promise unit :=
  verification <- executeAdbCommandWithRetry' "shell avbctl get-verification" portNumber ;;
  let verificationIsAlreadyDisabled := Js.includes verification "disabled" in
  verity <- executeAdbCommandWithRetry' "shell avbctl get-verity" portNumber ;;
  let verityIsAlreadyDisabled := Js.includes verity "disabled" in
  (if negb verificationIsAlreadyDisabled
   then executeAdbCommandWithRetry' "shell avbctl disable-verification" portNumber ;;;
        resolve tt
   else resolve tt) ;;;
  (if negb verityIsAlreadyDisabled
   then executeAdbCommandWithRetry' "disable-verity" portNumber ;;; resolve tt
   else resolve tt) ;;;
  if orb (negb verificationIsAlreadyDisabled) (negb verityIsAlreadyDisabled)
  then rebootEmulator portNumber true ;;;
       executeAdbCommandWithRetry' "root" portNumber ;;;
       resolve tt
  else resolve tt.

Definition mountAsRootWritableSystem (emulatorName : string) : Promise Z :=
  portNumber <- startEmulator emulatorName true true ;;
  executeAdbCommandWithRetry' "root" portNumber ;;;
  emulator <- fetchEmulator emulatorName ;;
  match emulator with
  | None =>
      reject (SfdxError ("Unable to determine device info: Port = "
                         ++ Js.ofNumber portNumber ++ " , Name = " ++ emulatorName))
  | Some emulator =>
      v29 <- liftSettled (Version_from lib "29") ;;
      (if sameOrNewer lib (apiLevel emulator) v29
       then disableVerifiedBoot portNumber
       else resolve tt) ;;;
      executeAdbCommandWithRetry' "remount" portNumber ;;;
      resolve portNumber
  end.

(** *** The installed packages *)

Definition getCache : Promise (AndroidPackages Version) :=
  fun s => (Resolved (packageCache s), s, []).

Definition setCache (packages : AndroidPackages Version) : Promise unit :=
  fun s => (Resolved tt, mkState (world s) packages, []).

Definition isCached (s : State) : bool := negb (isEmpty lib (packageCache s)).

Definition fetchInstalledPackages : Promise (AndroidPackages Version) :=
  match getAndroidSdkRoot cfg with
  | None => reject (SfdxError "Android SDK root is not set.")
  | Some _ =>
      cache <- getCache ;;
      if negb (isEmpty lib cache) then resolve cache
      else
        result <- executeCommandAsync (getSdkManagerCommand cfg ++ " --list") ;;
        (if andb (Js.truthy (stdout result))
                 (0 <? Z.of_nat (String.length (stdout result)))
         then packages <- liftSettled (parseRawPackagesString lib (stdout result)) ;;
              setCache packages
         else resolve tt) ;;;
        getCache
  end.

Definition fetchInstalledSystemImages : Promise (list (AndroidPackage Version)) :=
  packages <- fetchInstalledPackages ;;
  resolve (systemImages packages).

Definition imagePattern (api image architecture : string) : string :=
  "(" ++ api ++ ";" ++ image ++ ";" ++ architecture ++ ")".

(** The three nested loops of [packageWithRequiredEmulatorImages]. *)
Definition findImage (androidPackage : AndroidPackage Version)
    (installedSystemImages : list (AndroidPackage Version))
  : option (AndroidPackage Version) :=
  firstSome (fun architecture =>
    firstSome (fun image =>
      find (fun img =>
              regexMatches cfg (path img)
                (imagePattern (platformAPI lib androidPackage) image architecture))
           installedSystemImages)
      (supportedImages cfg))
    (supportedArchitectures cfg).

Definition packageWithRequiredEmulatorImages (androidPackage : AndroidPackage Version)
  : Promise (option (AndroidPackage Version)) :=
  installedSystemImages <- fetchInstalledSystemImages ;;
  resolve (findImage androidPackage installedSystemImages).

(** The loop that pushes the packages with an emulator image to [results]. *)
Fixpoint keepWithImages (matchingPlatforms : list (AndroidPackage Version))
  : Promise (list (AndroidPackage Version)) :=
  match matchingPlatforms with
  | [] => resolve []
  | pkg :: rest =>
      keep <- catch (emulatorImage <- packageWithRequiredEmulatorImages pkg ;;
                     resolve (match emulatorImage with Some _ => true | None => false end))
                    (fun _ => resolve false) ;;
      results <- keepWithImages rest ;;
      resolve (if keep then pkg :: results else results)
  end.

(** The comparator [(a, b) => a.version.compare(b.version) * -1]. *)
Definition newestFirst (a b : AndroidPackage Version) : Z :=
  compare lib (version a) (version b) * -1.

Definition minimumIs (message : string) : string :=
  message ++ " Minimum supported Android API package version is " ++ minSupportedRuntime cfg.

Definition fetchAllAvailableApiPackages (mustHaveSupportedEmulatorImages : bool)
  : Promise (list (AndroidPackage Version)) :=
  minRuntime <- liftSettled (Version_from lib (minSupportedRuntime cfg)) ;;
  allPackages <- fetchInstalledPackages ;;
  if isEmpty lib allPackages
  then reject (SfdxError (minimumIs "No Android API packages are installed."))
  else
    let matchingPlatforms :=
      filter (fun pkg => sameOrNewer lib (version pkg) minRuntime) (platforms allPackages) in
    if Z.of_nat (List.length matchingPlatforms) <? 1
    then reject (SfdxError
                   (minimumIs "Could not locate a supported Android API package."))
    else
      results <- (if mustHaveSupportedEmulatorImages
                  then keepWithImages matchingPlatforms
                  else resolve matchingPlatforms) ;;
      resolve (Array_sort newestFirst results).

(** [apiLevel ? Version.from(apiLevel) : undefined]: an absent and an empty
    argument are both falsy. *)
Definition targetRuntimeOf (apiLevel : option string) : Promise (option Version) :=
  match apiLevel with
  | Some level =>
      if Js.truthy level
      then v <- liftSettled (Version_from lib level) ;; resolve (Some v)
      else resolve None
  | None => resolve None
  end.

Definition noPackageForLevel (apiLevel : option string) : string :=
  "Could not locate Android API package (with matching emulator images) for API level "
  ++ match apiLevel with Some level => level | None => "undefined" end ++ ".".

Definition fetchSupportedAndroidAPIPackage (apiLevel : option string)
  : Promise (AndroidPackage Version) :=
  targetRuntime <- targetRuntimeOf apiLevel ;;
  packages <- fetchAllAvailableApiPackages true ;;
  let matchingPlatforms :=
    match targetRuntime with
    | Some t => filter (fun pkg => same lib (version pkg) t) packages
    | None => packages
    end in
  match targetRuntime, matchingPlatforms with
  | Some _, [] => reject (SfdxError (noPackageForLevel apiLevel))
  | None, [] =>
      reject (SfdxError
        (minimumIs
           "Could not locate a supported Android API package with matching emulator images."))
  | _, pkg :: _ => resolve pkg
  end.

(** *** The configuration file of a virtual device *)

(** One turn of the loop of [readEmulatorConfig]: a line with at least one
    [=] sets the text before the first [=] to the text between the first
    and the second. *)
Definition readLine (configMap : JsMap) (line : string) : JsMap :=
  match Js.split "="%char line with
  | key :: value :: _ => Map_set key value configMap
  | _ => configMap
  end.

Definition parseConfig (configFile : string) : JsMap :=
  fold_left readLine (Js.split newlineChar configFile) [].

Definition readEmulatorConfig (emulatorName : string) : Promise JsMap :=
  catch (configFile <- readFile (configIniPath cfg emulatorName) ;;
         resolve (parseConfig configFile))
        (fun _ => resolve []).

(** The string built by [config.forEach] in [writeEmulatorConfig]. *)
Definition serializeConfig (config : JsMap) : string :=
  fold_left (fun configString entry => configString ++ fst entry ++ "=" ++ snd entry ++ newline)
            config EmptyString.

(** A failure of [fs.writeFileSync] is caught and only logged. *)
Definition writeEmulatorConfig (emulatorName : string) (config : JsMap) : Promise unit :=
  fun s =>
    let filePath := configIniPath cfg emulatorName in
    let configString := serializeConfig config in
    match writeFileSync host filePath configString (world s) with
    | (_, w) => (Resolved tt, mkState w (packageCache s), [WriteFile filePath configString])
    end.

(** [v.trim().toLocaleLowerCase()] for an entry that is present and not
    empty. *)
Definition lowerEntry (key : string) (config : JsMap) : JsMap :=
  match Map_get key config with
  | Some v => if Js.truthy v then Map_set key (Js.toLowerCase (Js.trim v)) config else config
  | None => config
  end.

Definition skinFor (skinName : string) : string :=
  if String.eqb skinName "pixel" then "pixel_silver"
  else if String.eqb skinName "pixel_xl" then "pixel_xl_silver"
  else skinName.

(** [(sdkRoot && sdkRoot.rootLocation) || ''] *)
Definition sdkRootLocation : string :=
  match getAndroidSdkRoot cfg with
  | Some sdkRoot => rootLocation sdkRoot
  | None => EmptyString
  end.

Definition applySkin (config : JsMap) : JsMap :=
  let skinName :=
    match Map_get "hw.device.name" config with
    | Some v => v
    | None => EmptyString
    end in
  if Js.truthy skinName
  then
    let skinName := skinFor skinName in
    Map_set "showDeviceFrame" "yes"
      (Map_set "skin.dynamic" "yes"
        (Map_set "skin.path" (sdkRootLocation ++ "/skins/" ++ skinName)
          (Map_set "skin.name" skinName config)))
  else config.

(** The changes that [updateEmulatorConfig] makes to the map it has read. *)
Definition updatedConfig (config : JsMap) : JsMap :=
  applySkin
    (Map_set "hw.gpu.enabled" "yes"
      (Map_set "hw.gpu.mode" "auto"
        (Map_set "hw.keyboard" "yes"
          (lowerEntry "runtime.network.speed"
            (lowerEntry "runtime.network.latency" config))))).

Definition updateEmulatorConfig (emulatorName : string) : Promise unit :=
  config <- readEmulatorConfig emulatorName ;;
  if Map_size config =? 0 then resolve tt
  else writeEmulatorConfig emulatorName (updatedConfig config) ;;; resolve tt.

(** *** Other operations *)

Definition fetchSupportedEmulatorImagePackage (apiLevel : option string)
  : Promise (AndroidPackage Version) :=
  catch (installedAndroidPackage <- fetchSupportedAndroidAPIPackage apiLevel ;;
         emulatorImage <- packageWithRequiredEmulatorImages installedAndroidPackage ;;
         match emulatorImage with
         | Some img => resolve img
         | None =>
             reject (SfdxError
               ("Could not locate an emulator image. Requires any one of these ["
                ++ String.concat "," (supportedImages cfg) ++ " for "
                ++ platformAPI lib installedAndroidPackage ++ "]"))
         end)
        (fun _ => reject (SfdxError "Could not find android emulator packages.")).


Definition launchURLIntent (url : string) (portNumber : Z) : Promise unit :=
  executeAdbCommand ("shell am start -a android.intent.action.VIEW -d " ++ url)
                    portNumber ;;;
  resolve tt.

(** One [--es] argument of the launch command, with its leading blank. *)
Definition extra (key value : string) : string :=
  " --es " ++ doubleQuote ++ key ++ doubleQuote ++ " " ++ doubleQuote ++ value ++ doubleQuote.

Definition launchArgs (prefixes : PreviewPrefixes) (compName projectDir : string)
    (serverAddress serverPort : option string)
    (targetAppArguments : list LaunchArgument) : string :=
  let optional key (value : option string) :=
    match value with
    | Some v => if Js.truthy v then extra key v else EmptyString
    | None => EmptyString
    end in
  "--es " ++ doubleQuote ++ COMPONENT_NAME_ARG_PREFIX prefixes ++ doubleQuote ++ " "
  ++ doubleQuote ++ compName ++ doubleQuote
  ++ extra (PROJECT_DIR_ARG_PREFIX prefixes) projectDir
  ++ optional (SERVER_ADDRESS_PREFIX prefixes) serverAddress
  ++ optional (SERVER_PORT_PREFIX prefixes) serverPort
  ++ String.concat EmptyString
       (map (fun arg => extra (argName arg) (argValue arg)) targetAppArguments).

Definition launchCommand (prefixes : PreviewPrefixes) (compName projectDir targetApp : string)
    (targetAppArguments : list LaunchArgument) (launchActivity : string)
    (serverAddress serverPort : option string) : string :=
  "shell am start -S -n " ++ doubleQuote ++ targetApp ++ "/" ++ launchActivity ++ doubleQuote
  ++ " -a android.intent.action.MAIN" ++ " -c android.intent.category.LAUNCHER" ++ " "
  ++ launchArgs prefixes compName projectDir serverAddress serverPort targetAppArguments.

(** [appBundlePath && appBundlePath.trim().length > 0] *)
Definition bundleGiven (appBundlePath : option string) : option string :=
  match appBundlePath with
  | Some bundle =>
      if andb (Js.truthy bundle) (0 <? Z.of_nat (String.length (Js.trim bundle)))
      then Some (Js.trim bundle) else None
  | None => None
  end.

Definition installCommand (bundle : string) : string :=
  let pathQuote := if isWindows cfg then doubleQuote else "'" in
  "install -r -t " ++ pathQuote ++ bundle ++ pathQuote.

Definition launchNativeApp (prefixes : PreviewPrefixes) (compName projectDir : string)
    (appBundlePath : option string) (targetApp : string)
    (targetAppArguments : list LaunchArgument) (launchActivity : string)
    (portNumber : Z) (serverAddress serverPort : option string) : Promise unit :=
  match bundleGiven appBundlePath with
  | Some bundle => executeAdbCommand (installCommand bundle) portNumber
  | None => resolve EmptyString
  end ;;;
  executeAdbCommand
    (launchCommand prefixes compName projectDir targetApp targetAppArguments
       launchActivity serverAddress serverPort)
    portNumber ;;;
  resolve tt.

(** *** Vocabulary of the statements *)

(** The world in which attempt number [k] (from 0) of a command starts,
    when the attempts before it have all been followed by the delay. *)
Fixpoint afterFailures (adbCmd : string) (retryDelay : Z) (k : nat) (w : W) : W :=
  match k with
  | O => w
  | S k' =>
      afterFailures adbCmd retryDelay k'
        (sleep host retryDelay (snd (runCommand host adbCmd w)))
  end.

Definition nthAttempt (adbCmd : string) (retryDelay : Z) (k : nat) (w : W) : ExecResult :=
  fst (runCommand host adbCmd (afterFailures adbCmd retryDelay k w)).

(** [k + 1] runs of a command with a delay between two runs. *)
Fixpoint retryTrace (adbCmd : string) (retryDelay : Z) (k : nat) : list Event :=
  match k with
  | O => [Exec adbCmd]
  | S k' => Exec adbCmd :: Sleep retryDelay :: retryTrace adbCmd retryDelay k'
  end.

Definition isExecOf (adbCmd : string) (e : Event) : bool :=
  match e with
  | Exec c => String.eqb c adbCmd
  | _ => false
  end.

(** How many times a command has been run. *)
Definition countExec (adbCmd : string) (trace : list Event) : nat :=
  List.length (filter (isExecOf adbCmd) trace).

(** The result, the final state and the trace of a run. *)
Definition outcome {A} (r : Settled A * State * list Event) : Settled A := fst (fst r).
Definition finalState {A} (r : Settled A * State * list Event) : State := snd (fst r).
Definition traceOf {A} (r : Settled A * State * list Event) : list Event := snd r.

(** The lines that [-list-avds] prints in a state; none when the command
    fails. *)
Definition listedAVDs (s : State) : list string :=
  match fst (runCommand host (getEmulatorCommand cfg ++ " -list-avds") (world s)) with
  | ExecResolved out _ => Js.split newlineChar out
  | ExecRejected _ => []
  end.

Fixpoint lastChar (s : string) : option ascii :=
  match s with
  | EmptyString => None
  | String c rest =>
      match rest with
      | EmptyString => Some c
      | _ => lastChar rest
      end
  end.

(** The command that [stopEmulator] sends to the emulator on a port. *)
Definition stopCommand (portNumber : Z) : string :=
  adbCommandLine "shell reboot -p" portNumber.

(** The commands that only ask for the state of the devices: the list of
    virtual devices, the list of running emulators, and the name and the
    path of the virtual device that runs on a port. *)
Definition isQuery (e : Event) : Prop :=
  e = Exec (getEmulatorCommand cfg ++ " -list-avds")
  \/ e = Exec (getAdbShellCommand cfg ++ " devices")
  \/ exists p, e = Exec (adbCommandLine "emu avd name" p)
               \/ e = Exec (adbCommandLine "emu avd path" p).

(** The state in which [startEmulator] looks for the port of a device. *)
Definition resolvedIn (s : State) : State :=
  mkState (snd (runCommand host (getEmulatorCommand cfg ++ " -list-avds") (world s)))
          (packageCache s).



(** The events of [mountAsRootWritableSystem] after the emulator has been
    started, for a device of API level 29 or newer that answers every
    command at once: the device is rooted and looked up, verification and
    verity are asked for and disabled where they are not yet, the device
    is rebooted and rooted again if something had to be disabled, and the
    system is remounted. *)
Definition mountSteps (portNumber : Z) (verificationDisabled verityDisabled : bool)
  : list Event :=
  let adb command := Exec (adbCommandLine command portNumber) in
  ([adb "root";
    Exec (getEmulatorCommand cfg ++ " -list-avds");
    Exec (getAvdManagerCommand cfg ++ " list avd");
    adb "shell avbctl get-verification";
    adb "shell avbctl get-verity"]
   ++ (if verificationDisabled then [] else [adb "shell avbctl disable-verification"])
   ++ (if verityDisabled then [] else [adb "disable-verity"])
   ++ (if andb verificationDisabled verityDisabled then []
       else [adb "shell reboot"; adb bootCompletedCommand; adb "root"])
   ++ [adb "remount"])%list.

(** Whether an emulator image that the configuration supports is installed
    for a package. *)
Definition hasImage (inventory : AndroidPackages Version)
    (pkg : AndroidPackage Version) : bool :=
  match findImage pkg (systemImages inventory) with
  | Some _ => true
  | None => false
  end.

(** Two packages of the same rank. *)
Definition tiedWith (p a : AndroidPackage Version) : bool :=
  compare lib (version a) (version p) =? 0.

(** The keys that [updateEmulatorConfig] may change. *)
Definition editedKeys : list string :=
  ["runtime.network.latency"; "runtime.network.speed"; "hw.keyboard"; "hw.gpu.mode";
   "hw.gpu.enabled"; "skin.name"; "skin.path"; "skin.dynamic"; "showDeviceFrame"].

(** The comparison of two numbers by value. *)
Definition byValue (a b : Z) : Z :=
  match a ?= b with Lt => -1 | Eq => 0 | Gt => 1 end.

Definition digitChar (d : Z) : ascii := ascii_of_nat (48 + Z.to_nat d).

(** The four decimal digits of a number between 1000 and 9999. *)
Definition fourDigits (n : Z) : string :=
  String (digitChar (n / 10 / 10 / 10))
    (String (digitChar (n / 10 / 10 mod 10))
      (String (digitChar (n / 10 mod 10))
        (String (digitChar (n mod 10)) EmptyString))).

(** The numbers from 1000 to 9999. *)
Definition fourDigitNumbers : list Z :=
  map (fun i => 1000 + Z.of_nat i) (seq 0 (Z.to_nat 9000)).

(** The invariant of a [Map]: no key occurs twice. *)
Definition distinctKeys (m : JsMap) : Prop := NoDup (map fst m).

(** [c] does not occur in [s]. *)
Fixpoint without (c : ascii) (s : string) : bool :=
  match s with
  | EmptyString => true
  | String x s' => andb (negb (Ascii.eqb x c)) (without c s')
  end.

(** Neither [=] nor a line break occurs in a key or a value of [m]. *)
Definition plainEntry (e : string * string) : bool :=
  andb (andb (without "="%char (fst e)) (without newlineChar (fst e)))
       (andb (without "="%char (snd e)) (without newlineChar (snd e))).

Definition plainEntries (m : JsMap) : bool := forallb plainEntry m.

Definition entryLine (e : string * string) : string := fst e ++ "=" ++ snd e.

(** The lines that [writeEmulatorConfig] writes, one for each entry. *)
Fixpoint configLines (m : JsMap) : string :=
  match m with
  | [] => EmptyString
  | (k, v) :: rest => k ++ "=" ++ v ++ newline ++ configLines rest
  end.

(** ** Properties *)

(** *** Strings *)

Lemma append_assoc_string (a b c : string) : (a ++ b) ++ c = a ++ (b ++ c).
Proof. induction a as [|x a IH]; simpl; [reflexivity | now rewrite IH]. Qed.

Lemma append_empty_r (a : string) : a ++ EmptyString = a.
Proof. induction a as [|x a IH]; simpl; [reflexivity | now rewrite IH]. Qed.

(** *** The retrying executor *)

Lemma countExec_retryTrace adbCmd retryDelay k :
  countExec adbCmd (retryTrace adbCmd retryDelay k) = S k.
Proof.
  unfold countExec.
  induction k as [|k IH]; simpl; rewrite String.eqb_refl; simpl.
  - reflexivity.
  - now rewrite IH.
Qed.

(** One turn of the retry loop. *)
Lemma retryLoop_step adbCmd numRetries retryDelay k i allOutput s :
  retryLoop adbCmd numRetries retryDelay (S k) i allOutput s =
    let r := fst (runCommand host adbCmd (world s)) in
    let w := snd (runCommand host adbCmd (world s)) in
    if reportsError (gatherOutput r)
    then
      let s1 := mkState (if i <? numRetries then sleep host retryDelay w else w)
                        (packageCache s) in
      match retryLoop adbCmd numRetries retryDelay k (i + 1) (gatherOutput r) s1 with
      | (x, s2, t2) =>
          (x, s2,
           Exec adbCmd :: ((if i <? numRetries then [Sleep retryDelay] else []) ++ t2)%list)
      end
    else (Resolved (attemptStdout r), mkState w (packageCache s), [Exec adbCmd]).
Proof.
  cbn [retryLoop]. unfold andThen at 1, settle.
  destruct (runCommand host adbCmd (world s)) as [r w]. cbn [fst snd].
  cbv zeta.
  destruct (reportsError (gatherOutput r)); [|reflexivity].
  unfold andThen at 1.
  destruct (i <? numRetries).
  - unfold delay at 1. cbn [world packageCache].
    destruct (retryLoop _ _ _ k _ _ _) as [[x s2] t2]. reflexivity.
  - unfold resolve at 1.
    destruct (retryLoop _ _ _ k _ _ _) as [[x s2] t2]. reflexivity.
Qed.

Lemma retryLoop_exhausted adbCmd numRetries retryDelay :
  forall k i allOutput s,
    i = numRetries - Z.of_nat k ->
    (forall j, (j <= k)%nat ->
       reportsError (gatherOutput (nthAttempt adbCmd retryDelay j (world s))) = true) ->
    retryLoop adbCmd numRetries retryDelay (S k) i allOutput s =
      (Rejected (SfdxError (gatherOutput (nthAttempt adbCmd retryDelay k (world s)))),
       mkState (snd (runCommand host adbCmd (afterFailures adbCmd retryDelay k (world s))))
               (packageCache s),
       retryTrace adbCmd retryDelay k).
Proof.
  induction k as [|k IH]; intros i allOutput s Hi Hfail;
    rewrite retryLoop_step; cbv zeta;
    pose proof (Hfail O (Nat.le_0_l _)) as H0;
    unfold nthAttempt in H0; cbn [afterFailures] in H0; rewrite H0.
  - replace (i <? numRetries) with false by (symmetry; apply Z.ltb_ge; lia).
    reflexivity.
  - replace (i <? numRetries) with true by (symmetry; apply Z.ltb_lt; lia).
    rewrite IH.
    + reflexivity.
    + lia.
    + intros j Hj. apply (Hfail (S j)). lia.
Qed.

(** C1, as amended: when each of the [numRetries + 1] attempts reports the
    error marker, [executeAdbCommandWithRetry] runs the command exactly
    [numRetries + 1] times, with the delay between two attempts, and then
    rejects with the output gathered from the last attempt. *)
Theorem executeAdbCommandWithRetry_exhausted command portNumber numRetries retryDelay s :
  let adbCmd := adbCommandLine command portNumber in
  let n := Z.to_nat numRetries in
  let run := executeAdbCommandWithRetry command portNumber numRetries retryDelay s in
  0 <= numRetries ->
  (forall j, (j <= n)%nat ->
     reportsError (gatherOutput (nthAttempt adbCmd retryDelay j (world s))) = true) ->
  outcome run
    = Rejected (SfdxError (gatherOutput (nthAttempt adbCmd retryDelay n (world s))))
  /\ traceOf run = retryTrace adbCmd retryDelay n
  /\ countExec adbCmd (traceOf run) = S n.
Proof.
  intros adbCmd n run Hn Hfail.
  assert (E : run =
    (Rejected (SfdxError (gatherOutput (nthAttempt adbCmd retryDelay n (world s)))),
     mkState (snd (runCommand host adbCmd (afterFailures adbCmd retryDelay n (world s))))
             (packageCache s),
     retryTrace adbCmd retryDelay n)).
  { unfold run, executeAdbCommandWithRetry.
    replace (Z.to_nat (numRetries + 1)) with (S n) by (unfold n; lia).
    apply retryLoop_exhausted; [unfold n; lia | exact Hfail]. }
  rewrite E. unfold outcome, traceOf. cbn [fst snd].
  repeat split. apply countExec_retryTrace.
Qed.

Lemma retryLoop_succeeds adbCmd numRetries retryDelay :
  forall k remaining i allOutput s,
    (k <= remaining)%nat ->
    i = numRetries - Z.of_nat remaining ->
    (forall j, (j < k)%nat ->
       reportsError (gatherOutput (nthAttempt adbCmd retryDelay j (world s))) = true) ->
    reportsError (gatherOutput (nthAttempt adbCmd retryDelay k (world s))) = false ->
    retryLoop adbCmd numRetries retryDelay (S remaining) i allOutput s =
      (Resolved (attemptStdout (nthAttempt adbCmd retryDelay k (world s))),
       mkState (snd (runCommand host adbCmd (afterFailures adbCmd retryDelay k (world s))))
               (packageCache s),
       retryTrace adbCmd retryDelay k).
Proof.
  induction k as [|k IH]; intros remaining i allOutput s Hk Hi Hfail Hok;
    rewrite retryLoop_step; cbv zeta.
  - unfold nthAttempt in Hok. cbn [afterFailures] in Hok. rewrite Hok. reflexivity.
  - pose proof (Hfail O (Nat.lt_0_succ _)) as H0.
    unfold nthAttempt in H0. cbn [afterFailures] in H0. rewrite H0.
    destruct remaining as [|remaining]; [lia|].
    replace (i <? numRetries) with true by (symmetry; apply Z.ltb_lt; lia).
    rewrite (IH remaining).
    + reflexivity.
    + lia.
    + lia.
    + intros j Hj. apply (Hfail (S j)). lia.
    + exact Hok.
Qed.

(** X1: a command that reports the error marker in its first [k] attempts
    and not in the next one, with [k] at most the number of retries, is run
    exactly [k + 1] times with the delay between two attempts, and the call
    resolves with the standard output of the last attempt. *)
Theorem executeAdbCommandWithRetry_recovers command portNumber numRetries retryDelay k s :
  let adbCmd := adbCommandLine command portNumber in
  let run := executeAdbCommandWithRetry command portNumber numRetries retryDelay s in
  (k <= Z.to_nat numRetries)%nat ->
  0 <= numRetries ->
  (forall j, (j < k)%nat ->
     reportsError (gatherOutput (nthAttempt adbCmd retryDelay j (world s))) = true) ->
  reportsError (gatherOutput (nthAttempt adbCmd retryDelay k (world s))) = false ->
  outcome run = Resolved (attemptStdout (nthAttempt adbCmd retryDelay k (world s)))
  /\ traceOf run = retryTrace adbCmd retryDelay k
  /\ countExec adbCmd (traceOf run) = S k.
Proof.
  intros adbCmd run Hk Hn Hfail Hok.
  assert (E : run =
    (Resolved (attemptStdout (nthAttempt adbCmd retryDelay k (world s))),
     mkState (snd (runCommand host adbCmd (afterFailures adbCmd retryDelay k (world s))))
             (packageCache s),
     retryTrace adbCmd retryDelay k)).
  { unfold run, executeAdbCommandWithRetry.
    replace (Z.to_nat (numRetries + 1)) with (S (Z.to_nat numRetries)) by lia.
    apply retryLoop_succeeds; [exact Hk | lia | exact Hfail | exact Hok]. }
  rewrite E. unfold outcome, traceOf. cbn [fst snd].
  repeat split. apply countExec_retryTrace.
Qed.

Lemma reportsError_includes allOutput :
  reportsError allOutput = Js.includes (Js.toLowerCase allOutput) "error:".
Proof.
  unfold reportsError, errorMarker.
  destruct allOutput; [reflexivity | apply andb_true_l].
Qed.

(** The buffer of an attempt, written out for each way the command ends. *)
Lemma gatherOutput_streams r :
  gatherOutput r
  = match r with
    | ExecResolved out err =>
        match err with EmptyString => EmptyString | _ => newline ++ err end
        ++ match out with EmptyString => EmptyString | _ => newline ++ out end
    | ExecRejected e => e
    end.
Proof.
  destruct r as [out err|e]; unfold gatherOutput; cbn [stdout stderr].
  - destruct err, out; reflexivity.
  - destruct e; cbn [Js.truthy append]; [reflexivity | now rewrite append_empty_r].
Qed.

Lemma retryLoop_first_exec adbCmd numRetries retryDelay k i allOutput s :
  exists rest,
    traceOf (retryLoop adbCmd numRetries retryDelay (S k) i allOutput s)
    = Exec adbCmd :: rest.
Proof.
  rewrite retryLoop_step. cbv zeta.
  destruct (reportsError _).
  - destruct (retryLoop _ _ _ k _ _ _) as [[x s2] t2]. eexists. reflexivity.
  - eexists. reflexivity.
Qed.

(** After a failing attempt that is not the last one, the command is run
    again when the delay has passed. *)
Lemma retryLoop_retries adbCmd numRetries retryDelay :
  forall k remaining i allOutput s,
    (k < remaining)%nat ->
    i = numRetries - Z.of_nat remaining ->
    (forall j, (j <= k)%nat ->
       reportsError (gatherOutput (nthAttempt adbCmd retryDelay j (world s))) = true) ->
    exists rest,
      traceOf (retryLoop adbCmd numRetries retryDelay (S remaining) i allOutput s)
      = (retryTrace adbCmd retryDelay k ++ Sleep retryDelay :: Exec adbCmd :: rest)%list.
Proof.
  induction k as [|k IH]; intros remaining i allOutput s Hk Hi Hfail;
    rewrite retryLoop_step; cbv zeta;
    pose proof (Hfail O (Nat.le_0_l _)) as H0;
    unfold nthAttempt in H0; cbn [afterFailures] in H0; rewrite H0;
    replace (i <? numRetries) with true by (symmetry; apply Z.ltb_lt; lia);
    (destruct remaining as [|remaining]; [lia|]).
  - match goal with
    | |- context [retryLoop ?a ?b ?c (S remaining) ?j ?o ?s1] =>
        destruct (retryLoop_first_exec a b c remaining j o s1) as [rest Hrest];
        destruct (retryLoop a b c (S remaining) j o s1) as [[x s2] t2]
    end.
    unfold traceOf in *. cbn [snd] in *. subst t2. eexists. reflexivity.
  - match goal with
    | |- context [retryLoop ?a ?b ?c (S remaining) ?j ?o ?s1] =>
        destruct (IH remaining j o s1) as [rest Hrest];
        [lia | lia | intros m Hm; apply (Hfail (S m)); lia |];
        destruct (retryLoop a b c (S remaining) j o s1) as [[x s2] t2]
    end.
    unfold traceOf in *. cbn [snd] in *. subst t2. eexists. reflexivity.
Qed.

(** C2, as amended: the buffer of an attempt is the error text of a
    rejected command, or else the standard error and the standard output,
    each preceded by a line break when it is not empty.  Whether the
    command resolved or rejected, attempt [k] (which takes place when the
    attempts before it have failed) is a failure exactly when this buffer
    contains [error:] in some letter case.  Without the marker the call
    resolves with the standard output of the attempt, the empty string for
    a rejected command, and the command is not run again; with it the call
    rejects with the buffer when no retry is left, and otherwise waits and
    runs the command again. *)
Theorem attempt_fails_iff_marker command portNumber numRetries retryDelay k s :
  let adbCmd := adbCommandLine command portNumber in
  let n := Z.to_nat numRetries in
  let run := executeAdbCommandWithRetry command portNumber numRetries retryDelay s in
  let attempt j := nthAttempt adbCmd retryDelay j (world s) in
  let line text := match text with EmptyString => EmptyString | _ => newline ++ text end in
  let buffer r :=
    match r with
    | ExecResolved out err => line err ++ line out
    | ExecRejected e => e
    end in
  let result_stdout r :=
    match r with
    | ExecResolved out _ => out
    | ExecRejected _ => EmptyString
    end in
  let marked r := Js.includes (Js.toLowerCase (buffer r)) "error:" in
  0 <= numRetries ->
  (k <= n)%nat ->
  (forall j, (j < k)%nat -> marked (attempt j) = true) ->
  (marked (attempt k) = false ->
     outcome run = Resolved (result_stdout (attempt k))
     /\ traceOf run = retryTrace adbCmd retryDelay k)
  /\ (marked (attempt k) = true ->
        (k = n ->
           outcome run = Rejected (SfdxError (buffer (attempt k)))
           /\ traceOf run = retryTrace adbCmd retryDelay k)
        /\ ((k < n)%nat ->
              exists rest,
                traceOf run
                = (retryTrace adbCmd retryDelay k
                   ++ Sleep retryDelay :: Exec adbCmd :: rest)%list)).
Proof.
  intros adbCmd n run attempt line buffer result_stdout marked Hn Hk Hfail.
  assert (Hmarked : forall r, reportsError (gatherOutput r) = marked r).
  { intros r. rewrite reportsError_includes, gatherOutput_streams. reflexivity. }
  assert (Hbuffer : forall r, gatherOutput r = buffer r)
    by (intros r; apply gatherOutput_streams).
  assert (Hfail' : forall j, (j < k)%nat ->
            reportsError (gatherOutput (nthAttempt adbCmd retryDelay j (world s))) = true).
  { intros j Hj. rewrite Hmarked. now apply Hfail. }
  unfold run, executeAdbCommandWithRetry. fold adbCmd.
  replace (Z.to_nat (numRetries + 1)) with (S n) by (unfold n; lia).
  split; [intros Hok | intros Hbad; split; [intros Hlast | intros Hmore]].
  - rewrite (retryLoop_succeeds adbCmd numRetries retryDelay k n 0 EmptyString s);
      [ | exact Hk | unfold n; lia | exact Hfail' | now rewrite Hmarked ].
    unfold outcome, traceOf. cbn [fst snd]. split; reflexivity.
  - subst k.
    rewrite (retryLoop_exhausted adbCmd numRetries retryDelay n 0 EmptyString s);
      [ | unfold n; lia | ].
    + unfold outcome, traceOf. cbn [fst snd]. rewrite Hbuffer. split; reflexivity.
    + intros j Hj. destruct (Nat.eq_dec j n) as [->|Hne].
      * now rewrite Hmarked.
      * apply Hfail'. lia.
  - apply retryLoop_retries; [exact Hmore | unfold n; lia |].
    intros j Hj. destruct (Nat.eq_dec j k) as [->|Hne].
    + now rewrite Hmarked.
    + apply Hfail'. lia.
Qed.

Lemma toLowerCase_append a b :
  Js.toLowerCase (a ++ b) = Js.toLowerCase a ++ Js.toLowerCase b.
Proof. induction a as [|c a IH]; simpl; [reflexivity | now rewrite IH]. Qed.

Lemma prefix_before_separator sep p :
  without sep p = true ->
  forall a b, String.prefix p (a ++ String sep b) = String.prefix p a.
Proof.
  induction p as [|x p IH]; intros Hp a b; [destruct a; reflexivity|].
  cbn [without] in Hp. apply andb_prop in Hp. destruct Hp as [Hx Hp].
  apply negb_true_iff, Ascii.eqb_neq in Hx.
  destruct a as [|y a]; cbn [append String.prefix].
  - destruct (ascii_dec x sep); [contradiction | reflexivity].
  - destruct (ascii_dec x y); [now apply IH | reflexivity].
Qed.

Lemma includes_across_separator sep p :
  without sep p = true -> p <> EmptyString ->
  forall a b, Js.includes (a ++ String sep b) p = orb (Js.includes a p) (Js.includes b p).
Proof.
  intros Hp Hne. induction a as [|c a IH]; intros b.
  - cbn [append]. cbn [Js.includes].
    pose proof (prefix_before_separator sep p Hp EmptyString b) as H.
    cbn [append] in H. rewrite H.
    destruct p; [contradiction | reflexivity].
  - change (String c a ++ String sep b) with (String c (a ++ String sep b)).
    cbn [Js.includes]. rewrite IH.
    pose proof (prefix_before_separator sep p Hp (String c a) b) as H.
    cbn [append] in H. rewrite H. now rewrite orb_assoc.
Qed.

(** X2: an attempt is a failure exactly when the error text, the standard
    error or the standard output on its own contains the marker: the
    streams are joined by line breaks, so a marker that begins at the end
    of one stream and ends in the next is not found. *)
Theorem marker_in_some_stream r :
  reportsError (gatherOutput r)
  = match r with
    | ExecResolved out err =>
        orb (Js.includes (Js.toLowerCase err) "error:")
            (Js.includes (Js.toLowerCase out) "error:")
    | ExecRejected e => Js.includes (Js.toLowerCase e) "error:"
    end.
Proof.
  assert (Hsep : forall a b,
            Js.includes (Js.toLowerCase (a ++ String newlineChar b)) "error:"
            = orb (Js.includes (Js.toLowerCase a) "error:")
                  (Js.includes (Js.toLowerCase b) "error:")).
  { intros a b. rewrite toLowerCase_append. cbn [Js.toLowerCase].
    change (Js.lowerChar newlineChar) with newlineChar.
    apply includes_across_separator; [reflexivity | discriminate]. }
  assert (Hguard : forall a,
            reportsError a = Js.includes (Js.toLowerCase a) "error:").
  { intros a. unfold reportsError, errorMarker.
    destruct a; [reflexivity | apply andb_true_l]. }
  rewrite Hguard. destruct r as [out err|e]; unfold gatherOutput; cbn [stdout stderr].
  - destruct err as [|c err], out as [|d out]; cbn [Js.truthy append]; unfold newline.
    + reflexivity.
    + apply (Hsep EmptyString (String d out)).
    + rewrite append_empty_r.
      change (String newlineChar EmptyString ++ String c err)
        with (EmptyString ++ String newlineChar (String c err)).
      rewrite Hsep. cbn [Js.toLowerCase Js.includes String.prefix orb].
      now rewrite orb_false_r.
    + change ((String newlineChar EmptyString ++ String c err)
              ++ String newlineChar EmptyString ++ String d out)
        with ((EmptyString ++ String newlineChar (String c err))
              ++ String newlineChar (String d out)).
      rewrite Hsep, Hsep. reflexivity.
  - destruct e; cbn [Js.truthy append]; [reflexivity|].
    now rewrite append_empty_r.
Qed.

(** *** Running a command *)

Lemma executeCommandAsync_run command s :
  executeCommandAsync command s =
    (match fst (runCommand host command (world s)) with
     | ExecResolved out err => Resolved (mkOutput out err)
     | ExecRejected e => Rejected (HostError e)
     end,
     mkState (snd (runCommand host command (world s))) (packageCache s),
     [Exec command]).
Proof.
  unfold executeCommandAsync, andThen, settle.
  destruct (runCommand host command (world s)) as [[out err|e] w]; reflexivity.
Qed.

(** *** Resolving the name of a virtual device *)

Lemma displayName_eqb avd emulatorName :
  orb (String.eqb avd emulatorName)
      (String.eqb (displayName avd) (displayName emulatorName))
  = String.eqb (displayName avd) (displayName emulatorName).
Proof.
  destruct (String.eqb_spec avd emulatorName) as [->|]; [|reflexivity].
  now rewrite String.eqb_refl.
Qed.

Lemma findAvd_find emulatorName listOfAVDs :
  findAvd emulatorName listOfAVDs
  = option_map Js.trim
      (find (fun avd => String.eqb (displayName avd) (displayName emulatorName))
            listOfAVDs).
Proof.
  induction listOfAVDs as [|avd rest IH]; [reflexivity|].
  cbn [findAvd find]. rewrite displayName_eqb.
  destruct (String.eqb _ _); [reflexivity | exact IH].
Qed.

Lemma resolveEmulatorImage_run emulatorName s :
  resolveEmulatorImage emulatorName s =
    (Resolved (findAvd emulatorName (listedAVDs s)),
     mkState (snd (runCommand host (getEmulatorCommand cfg ++ " -list-avds") (world s)))
             (packageCache s),
     [Exec (getEmulatorCommand cfg ++ " -list-avds")]).
Proof.
  unfold resolveEmulatorImage, catch, andThen, listedAVDs.
  rewrite executeCommandAsync_run.
  destruct (runCommand host _ (world s)) as [[out err|e] w]; reflexivity.
Qed.

(** *** Listing the virtual devices *)


(** *** Starting an emulator *)

Lemma executeAdbCommand_run command portNumber s :
  let adbCmd := adbCommandLine command portNumber in
  let r := fst (runCommand host adbCmd (world s)) in
  executeAdbCommand command portNumber s =
    (if reportsError (gatherOutput r)
     then Rejected (SfdxError (gatherOutput r))
     else Resolved (attemptStdout r),
     mkState (snd (runCommand host adbCmd (world s))) (packageCache s),
     [Exec adbCmd]).
Proof.
  intros adbCmd r. unfold executeAdbCommand, executeAdbCommandWithRetry.
  change (Z.to_nat (0 + 1)) with 1%nat. rewrite retryLoop_step. cbv zeta.
  fold adbCmd. fold r.
  destruct (reportsError (gatherOutput r)); reflexivity.
Qed.

Lemma lastChar_append a b :
  b <> EmptyString -> lastChar (a ++ b) = lastChar b.
Proof.
  intros Hb. induction a as [|c a IH]; [reflexivity|].
  cbn [append lastChar]. rewrite IH.
  destruct (a ++ b) eqn:E; [|reflexivity].
  destruct a; [simpl in E; contradiction | discriminate].
Qed.

Lemma lastChar_adbCommandLine command portNumber :
  command <> EmptyString ->
  lastChar (adbCommandLine command portNumber) = lastChar command.
Proof.
  intros Hc. unfold adbCommandLine.
  rewrite <- !append_assoc_string. now apply lastChar_append.
Qed.

Lemma isQuery_lastChar e :
  isQuery e ->
  exists c, e = Exec c
            /\ (lastChar c = Some "s"%char \/ lastChar c = Some "e"%char
                \/ lastChar c = Some "h"%char).
Proof.
  intros [-> | [-> | [p [-> | ->]]]]; eexists; (split; [reflexivity|]).
  - left. now rewrite lastChar_append.
  - left. now rewrite lastChar_append.
  - right. left. now rewrite lastChar_adbCommandLine.
  - right. right. now rewrite lastChar_adbCommandLine.
Qed.

Lemma isQuery_not_stop e p : isQuery e -> e <> Exec (stopCommand p).
Proof.
  intros Hq E. apply isQuery_lastChar in Hq.
  destruct Hq as [c [Hc Hlast]]. rewrite E in Hc. inversion Hc as [Hc'].
  rewrite <- Hc' in Hlast. unfold stopCommand in Hlast.
  rewrite lastChar_adbCommandLine in Hlast by discriminate.
  simpl in Hlast. intuition discriminate.
Qed.



Lemma getAllCurrentlyUsedAdbPorts_trace s :
  traceOf (getAllCurrentlyUsedAdbPorts s) = [Exec (getAdbShellCommand cfg ++ " devices")].
Proof.
  unfold getAllCurrentlyUsedAdbPorts, andThen. rewrite executeCommandAsync_run.
  destruct (fst (runCommand host _ (world s))); reflexivity.
Qed.

Lemma fetchEmulatorNameFromPort_run portNumber s :
  exists o,
    fetchEmulatorNameFromPort portNumber s
    = (o, mkState (snd (runCommand host (adbCommandLine "emu avd name" portNumber)
                          (world s))) (packageCache s),
       [Exec (adbCommandLine "emu avd name" portNumber)]).
Proof.
  unfold fetchEmulatorNameFromPort, andThen. rewrite executeAdbCommand_run.
  destruct (reportsError _); eexists; reflexivity.
Qed.

Lemma findPort_queries emulatorName ports :
  forall s, Forall isQuery (traceOf (findPort emulatorName ports s)).
Proof.
  induction ports as [|port rest IH]; intros s; [constructor|].
  cbn [findPort]. unfold andThen.
  destruct (fetchEmulatorNameFromPort_run port s) as [o E]. rewrite E.
  assert (Hq : isQuery (Exec (adbCommandLine "emu avd name" port))).
  { right. right. exists port. now left. }
  destruct o as [name|e]; [|constructor; [exact Hq | constructor]].
  destruct (String.eqb name emulatorName); [constructor; [exact Hq | constructor]|].
  specialize (IH (mkState (snd (runCommand host (adbCommandLine "emu avd name" port)
                                  (world s))) (packageCache s))).
  destruct (findPort emulatorName rest _) as [[o2 s2] t2].
  unfold traceOf in *. cbn [snd] in *. now constructor.
Qed.

Lemma emulatorHasPort_queries emulatorName s :
  (exists o, outcome (emulatorHasPort emulatorName s) = Resolved o)
  /\ Forall isQuery (traceOf (emulatorHasPort emulatorName s)).
Proof.
  unfold emulatorHasPort, catch, andThen.
  pose proof (getAllCurrentlyUsedAdbPorts_trace s) as Ht.
  destruct (getAllCurrentlyUsedAdbPorts s) as [[o s1] t1].
  unfold traceOf in Ht. cbn [snd] in Ht. subst t1.
  assert (Hq : isQuery (Exec (getAdbShellCommand cfg ++ " devices"))).
  { right. now left. }
  destruct o as [ports|e].
  - pose proof (findPort_queries emulatorName ports s1) as Hf.
    destruct (findPort emulatorName ports s1) as [[o2 s2] t2].
    unfold traceOf, outcome in *. cbn [fst snd] in *.
    destruct o2; (split; [eexists; reflexivity|]).
    + now constructor.
    + cbn. rewrite app_nil_r. now constructor.
  - split; [eexists; reflexivity | constructor; [exact Hq | constructor]].
Qed.






(** X3: for a name that matches no listed virtual device, [startEmulator]
    rejects with [Invalid emulator] after the listing alone: no device is
    asked, stopped or launched. *)
Theorem startEmulator_invalid emulatorName writable waitForBoot s :
  findAvd emulatorName (listedAVDs s) = None ->
  startEmulator emulatorName writable waitForBoot s
  = (Rejected (SfdxError ("Invalid emulator: " ++ emulatorName)),
     resolvedIn s,
     [Exec (getEmulatorCommand cfg ++ " -list-avds")]).
Proof.
  intros Hnone. unfold startEmulator, andThen.
  now rewrite resolveEmulatorImage_run, Hnone.
Qed.

(** X4: when the virtual device is not found running, [startEmulator]
    takes the next available port and spawns the emulator on it, with
    [-writable-system] exactly when a writable system is asked for; it
    sends no stop command, and without waiting for the boot it resolves
    with that port as soon as the process is spawned. *)
Theorem startEmulator_launches emulatorName writable s resolved next :
  let looked := emulatorHasPort resolved (resolvedIn s) in
  let run := startEmulator emulatorName writable false s in
  findAvd emulatorName (listedAVDs s) = Some resolved ->
  outcome looked = Resolved None ->
  outcome (getNextAvailableAdbPort (finalState looked)) = Resolved next ->
  outcome run = Resolved next
  /\ traceOf run
     = (Exec (getEmulatorCommand cfg ++ " -list-avds")
        :: traceOf looked
        ++ [Exec (getAdbShellCommand cfg ++ " devices");
            Spawn (getEmulatorCommand cfg ++ " @" ++ resolved ++ " -port "
                   ++ Js.ofNumber next
                   ++ (if writable then " -writable-system" else EmptyString))])%list
  /\ (forall p, ~ In (Exec (stopCommand p)) (traceOf run)).
Proof.
  intros looked run Hfind Hnone Hnext.
  assert (E : run =
    (Resolved next,
     mkState (spawnDetached host (emulatorLaunchCommand resolved next writable)
                (world (finalState (getNextAvailableAdbPort (finalState looked)))))
             (packageCache (finalState (getNextAvailableAdbPort (finalState looked)))),
     (Exec (getEmulatorCommand cfg ++ " -list-avds")
      :: traceOf looked
      ++ [Exec (getAdbShellCommand cfg ++ " devices");
          Spawn (emulatorLaunchCommand resolved next writable)])%list)).
  { unfold run, startEmulator, andThen.
    rewrite resolveEmulatorImage_run, Hfind. fold (resolvedIn s). fold looked.
    destruct looked as [[o s2] t2]. unfold outcome, finalState, traceOf in *.
    cbn [fst snd] in *. subst o. cbn [truthyPort samePort].
    assert (Ht : snd (getNextAvailableAdbPort s2)
                 = [Exec (getAdbShellCommand cfg ++ " devices")]).
    { unfold getNextAvailableAdbPort, andThen.
      pose proof (getAllCurrentlyUsedAdbPorts_trace s2) as Hp.
      destruct (getAllCurrentlyUsedAdbPorts s2) as [[o3 s3] t3].
      unfold traceOf in Hp. cbn [snd] in Hp. subst t3.
      destruct o3; reflexivity. }
    destruct (getNextAvailableAdbPort s2) as [[o3 s3] t3].
    cbn [fst snd] in *. subst o3 t3.
    unfold launch, andThen, spawn, resolve. cbn [fst snd app]. reflexivity. }
  rewrite E. unfold outcome, traceOf. cbn [fst snd].
  split; [reflexivity | split; [reflexivity|]].
  intros p [H|H]; [|apply in_app_or in H; destruct H as [H|H]].
  - refine (isQuery_not_stop _ p _ H). now left.
  - destruct (emulatorHasPort_queries resolved (resolvedIn s)) as [_ Hq].
    rewrite Forall_forall in Hq. now apply (isQuery_not_stop _ p (Hq _ H)).
  - destruct H as [H|[H|[]]]; [|discriminate].
    refine (isQuery_not_stop _ p _ H). right. now left.
Qed.

(** X5: [isEmulatorSystemWritable] never rejects and asks the device one
    question; its answer is [true] only when the path query succeeds and
    the launch parameters in that directory can be read and contain
    [-writable-system]. *)
Theorem isEmulatorSystemWritable_answer portNumber s :
  let query := adbCommandLine "emu avd path" portNumber in
  let r := fst (runCommand host query (world s)) in
  let w := snd (runCommand host query (world s)) in
  let paramFile :=
    pathJoin cfg (Js.trim (firstLine (attemptStdout r))) "emu-launch-params.txt" in
  isEmulatorSystemWritable portNumber s
  = (Resolved (if reportsError (gatherOutput r) then false
               else match readFileSync host paramFile w with
                    | Resolved launchParams => Js.includes launchParams "-writable-system"
                    | Rejected _ => false
                    end),
     mkState w (packageCache s),
     [Exec query]).
Proof.
  intros query r w paramFile.
  unfold isEmulatorSystemWritable, catch, andThen. rewrite executeAdbCommand_run.
  cbv zeta. fold query. fold r. fold w.
  destruct (reportsError (gatherOutput r)); [reflexivity|].
  unfold readFile. cbn [world]. fold paramFile.
  destruct (readFileSync host paramFile w); reflexivity.
Qed.

(** X6: [stopEmulator] sends the power-off command first.  When the
    command reports an error the call rejects at once; when the wait for
    the device to disappear times out, or its polling command fails, the
    call rejects without the final pause; otherwise it pauses for 5000 ms
    and resolves. *)
Theorem stopEmulator_steps portNumber s :
  let stop := stopCommand portNumber in
  let r := fst (runCommand host stop (world s)) in
  let w := snd (runCommand host stop (world s)) in
  let poll := poweredOffCommand portNumber in
  let polled := runCommand host poll w in
  let run := stopEmulator portNumber true s in
  (reportsError (gatherOutput r) = true ->
     outcome run = Rejected (SfdxError (gatherOutput r)) /\ traceOf run = [Exec stop])
  /\ (reportsError (gatherOutput r) = false ->
      (expired host (deviceReadinessWaitTime cfg) w (snd polled) = true ->
         outcome run
           = Rejected (SfdxError (formatMessage cfg "powerOffTimeOut"
                                    ("emulator-" ++ Js.ofNumber portNumber)))
         /\ traceOf run = [Exec stop; Exec poll])
      /\ (expired host (deviceReadinessWaitTime cfg) w (snd polled) = false ->
          (forall e, fst polled = ExecRejected e ->
             outcome run = Rejected (HostError e)
             /\ traceOf run = [Exec stop; Exec poll])
          /\ (forall out err, fst polled = ExecResolved out err ->
                outcome run = Resolved tt
                /\ traceOf run = [Exec stop; Exec poll; Sleep 5000]))).
Proof.
  intros stop r w poll polled run.
  unfold run, stopEmulator, andThen. rewrite executeAdbCommand_run. cbv zeta.
  fold stop. fold (stopCommand portNumber). fold stop. fold r. fold w.
  destruct (reportsError (gatherOutput r)).
  - split; [intros _; split; reflexivity | discriminate].
  - split; [discriminate | intros _].
    unfold waitUntilDeviceIsPoweredOff, andThen, promiseWithTimeout.
    rewrite executeCommandAsync_run. cbn [world packageCache].
    fold poll. fold polled.
    destruct (expired host (deviceReadinessWaitTime cfg) w (snd polled)).
    + split; [intros _; split; reflexivity | discriminate].
    + split; [discriminate | intros _]. split.
      * intros e ->. split; reflexivity.
      * intros out err ->. split; reflexivity.
Qed.

(** *** Mounting the system writable *)

Lemma fetchEmulators_run s :
  exists devices,
    fetchEmulators s
    = (Resolved devices,
       mkState (snd (runCommand host (getAvdManagerCommand cfg ++ " list avd") (world s)))
               (packageCache s),
       [Exec (getAvdManagerCommand cfg ++ " list avd")]).
Proof.
  unfold fetchEmulators, catch, andThen. rewrite executeCommandAsync_run.
  destruct (fst (runCommand host _ (world s))) as [out err|e];
    [|eexists; reflexivity].
  cbn [stdout]. destruct (andb _ _); [|eexists; reflexivity].
  unfold liftSettled. destruct (parseRawString lib out); eexists; reflexivity.
Qed.

Lemma fetchEmulator_found emulatorName device s :
  outcome (fetchEmulator emulatorName s) = Resolved (Some device) ->
  exists s',
    fetchEmulator emulatorName s
    = (Resolved (Some device), s',
       [Exec (getEmulatorCommand cfg ++ " -list-avds");
        Exec (getAvdManagerCommand cfg ++ " list avd")]).
Proof.
  unfold fetchEmulator, andThen. rewrite resolveEmulatorImage_run.
  destruct (findAvd emulatorName (listedAVDs s)) as [resolved|]; [|discriminate].
  destruct (negb (Js.truthy resolved)); [discriminate|].
  destruct (fetchEmulators_run (resolvedIn s)) as [devices E].
  fold (resolvedIn s). rewrite E. unfold resolve, outcome. cbn [fst].
  intros H. inversion H as [H']. rewrite H'. eexists. reflexivity.
Qed.

Lemma adbCommandLine_inj command command' portNumber :
  adbCommandLine command portNumber = adbCommandLine command' portNumber ->
  command = command'.
Proof.
  unfold adbCommandLine. rewrite <- !append_assoc_string.
  generalize (((getAdbShellCommand cfg ++ " -s emulator-") ++ Js.ofNumber portNumber) ++ " ").
  intros prefix. induction prefix as [|c prefix IH]; simpl; intros H;
    [exact H | inversion H; auto].
Qed.

Section Responsive.

(** The device answers every command without an error marker, and no
    timer fires. *)
Hypothesis retries : 0 <= AdbNumRetryAttempts cfg.
Hypothesis quiet :
  forall command w, reportsError (gatherOutput (fst (runCommand host command w))) = false.
Hypothesis patient : forall timeout w w', expired host timeout w w' = false.

Lemma executeAdbCommandWithRetry_quiet command portNumber s :
  executeAdbCommandWithRetry' command portNumber s
  = (Resolved (attemptStdout
                 (fst (runCommand host (adbCommandLine command portNumber) (world s)))),
     mkState (snd (runCommand host (adbCommandLine command portNumber) (world s)))
             (packageCache s),
     [Exec (adbCommandLine command portNumber)]).
Proof.
  unfold executeAdbCommandWithRetry', executeAdbCommandWithRetry.
  replace (Z.to_nat (AdbNumRetryAttempts cfg + 1))
    with (S (Z.to_nat (AdbNumRetryAttempts cfg))) by lia.
  rewrite retryLoop_step. cbv zeta. now rewrite quiet.
Qed.

Lemma waitUntilDeviceIsReady_quiet portNumber s :
  exists s',
    waitUntilDeviceIsReady portNumber s
    = (Resolved tt, s', [Exec (adbCommandLine bootCompletedCommand portNumber)]).
Proof.
  unfold waitUntilDeviceIsReady, andThen, promiseWithTimeout.
  rewrite executeAdbCommand_run. cbv zeta. rewrite quiet, patient.
  eexists. reflexivity.
Qed.

Lemma rebootEmulator_quiet portNumber s :
  exists s',
    rebootEmulator portNumber true s
    = (Resolved tt, s',
       [Exec (adbCommandLine "shell reboot" portNumber);
        Exec (adbCommandLine bootCompletedCommand portNumber)]).
Proof.
  unfold rebootEmulator, andThen. rewrite executeAdbCommand_run. cbv zeta.
  rewrite quiet.
  destruct (waitUntilDeviceIsReady_quiet portNumber
              (mkState (snd (runCommand host (adbCommandLine "shell reboot" portNumber)
                               (world s))) (packageCache s))) as [s' E].
  rewrite E. eexists. reflexivity.
Qed.

Lemma disableVerifiedBoot_quiet portNumber s verificationDisabled verityDisabled :
  (forall w,
     Js.includes
       (attemptStdout
          (fst (runCommand host
                  (adbCommandLine "shell avbctl get-verification" portNumber) w)))
       "disabled" = verificationDisabled) ->
  (forall w,
     Js.includes
       (attemptStdout
          (fst (runCommand host (adbCommandLine "shell avbctl get-verity" portNumber) w)))
       "disabled" = verityDisabled) ->
  exists s',
    disableVerifiedBoot portNumber s
    = (Resolved tt, s',
       let adb command := Exec (adbCommandLine command portNumber) in
       ([adb "shell avbctl get-verification"; adb "shell avbctl get-verity"]
        ++ (if verificationDisabled then []
            else [adb "shell avbctl disable-verification"])
        ++ (if verityDisabled then [] else [adb "disable-verity"])
        ++ (if andb verificationDisabled verityDisabled then []
            else [adb "shell reboot"; adb bootCompletedCommand; adb "root"]))%list).
Proof.
  intros Hverification Hverity.
  unfold disableVerifiedBoot, andThen.
  rewrite executeAdbCommandWithRetry_quiet, Hverification.
  rewrite executeAdbCommandWithRetry_quiet, Hverity.
  destruct verificationDisabled, verityDisabled; cbn [negb orb andb];
    unfold resolve; repeat rewrite executeAdbCommandWithRetry_quiet;
    try (match goal with
         | |- context [rebootEmulator ?p true ?st] =>
             destruct (rebootEmulator_quiet p st) as [s' E]; rewrite E
         end);
    repeat rewrite executeAdbCommandWithRetry_quiet;
    eexists; reflexivity.
Qed.

(** C5: for a device of API level 29 or newer that answers every command
    without an error marker and in time, [mountAsRootWritableSystem]
    resolves with the port on which [startEmulator] has left the emulator.
    After the start it roots the device, looks the device up and asks for
    verification and verity; when both are disabled it then only remounts,
    without a reboot command; otherwise it disables what is not disabled,
    reboots, waits for the boot to complete, roots again and remounts. *)
Theorem mountAsRootWritableSystem_steps emulatorName s port s1 t0 device v29
    verificationDisabled verityDisabled :
  let run := mountAsRootWritableSystem emulatorName s in
  let adb command := Exec (adbCommandLine command port) in
  startEmulator emulatorName true true s = (Resolved port, s1, t0) ->
  (forall s', outcome (fetchEmulator emulatorName s') = Resolved (Some device)) ->
  Version_from lib "29" = Resolved v29 ->
  sameOrNewer lib (apiLevel device) v29 = true ->
  (forall w,
     Js.includes
       (attemptStdout
          (fst (runCommand host (adbCommandLine "shell avbctl get-verification" port) w)))
       "disabled" = verificationDisabled) ->
  (forall w,
     Js.includes
       (attemptStdout
          (fst (runCommand host (adbCommandLine "shell avbctl get-verity" port) w)))
       "disabled" = verityDisabled) ->
  outcome run = Resolved port
  /\ traceOf run = (t0 ++ mountSteps port verificationDisabled verityDisabled)%list
  /\ mountSteps port true true
     = [adb "root";
        Exec (getEmulatorCommand cfg ++ " -list-avds");
        Exec (getAvdManagerCommand cfg ++ " list avd");
        adb "shell avbctl get-verification"; adb "shell avbctl get-verity";
        adb "remount"]
  /\ ~ In (adb "shell reboot") (mountSteps port true true)
  /\ mountSteps port false false
     = [adb "root";
        Exec (getEmulatorCommand cfg ++ " -list-avds");
        Exec (getAvdManagerCommand cfg ++ " list avd");
        adb "shell avbctl get-verification"; adb "shell avbctl get-verity";
        adb "shell avbctl disable-verification"; adb "disable-verity";
        adb "shell reboot"; adb bootCompletedCommand; adb "root";
        adb "remount"].
Proof.
  intros run adb Hstart Hdevice Hv29 Hapi Hverification Hverity.
  split; [|split; [|split; [reflexivity | split; [|reflexivity]]]].
  - unfold run, mountAsRootWritableSystem, andThen, outcome.
    rewrite Hstart, executeAdbCommandWithRetry_quiet.
    match goal with
    | |- context [fetchEmulator emulatorName ?st] =>
        destruct (fetchEmulator_found emulatorName device st (Hdevice st)) as [s3 E3];
        rewrite E3
    end.
    unfold liftSettled. rewrite Hv29, Hapi.
    destruct (disableVerifiedBoot_quiet port s3 _ _ Hverification Hverity) as [s4 E4].
    rewrite E4, executeAdbCommandWithRetry_quiet. reflexivity.
  - unfold run, mountAsRootWritableSystem, andThen, traceOf.
    rewrite Hstart, executeAdbCommandWithRetry_quiet.
    match goal with
    | |- context [fetchEmulator emulatorName ?st] =>
        destruct (fetchEmulator_found emulatorName device st (Hdevice st)) as [s3 E3];
        rewrite E3
    end.
    unfold liftSettled. rewrite Hv29, Hapi.
    destruct (disableVerifiedBoot_quiet port s3 _ _ Hverification Hverity) as [s4 E4].
    rewrite E4, executeAdbCommandWithRetry_quiet. unfold resolve. cbn [snd].
    unfold mountSteps. cbv zeta.
    repeat (rewrite <- ?app_assoc; cbn [app]). reflexivity.
  - unfold mountSteps, adb. cbn [andb app In].
    intros [H|[H|[H|[H|[H|[H|[]]]]]]].
    + inversion H as [H']. apply adbCommandLine_inj in H'. discriminate.
    + inversion H as [H']. apply (f_equal lastChar) in H'.
      rewrite lastChar_append, lastChar_adbCommandLine in H' by discriminate.
      discriminate.
    + inversion H as [H']. apply (f_equal lastChar) in H'.
      rewrite lastChar_append, lastChar_adbCommandLine in H' by discriminate.
      discriminate.
    + inversion H as [H']. apply adbCommandLine_inj in H'. discriminate.
    + inversion H as [H']. apply adbCommandLine_inj in H'. discriminate.
    + inversion H as [H']. apply adbCommandLine_inj in H'. discriminate.
Qed.

(** X7: for a device older than API level 29 that answers every command
    without an error marker, [mountAsRootWritableSystem] roots the device,
    looks it up and remounts: verification and verity are neither asked
    for nor disabled, and the device is not rebooted. *)
Theorem mountAsRootWritableSystem_before_29 emulatorName s port s1 t0 device v29 :
  let run := mountAsRootWritableSystem emulatorName s in
  let adb command := Exec (adbCommandLine command port) in
  startEmulator emulatorName true true s = (Resolved port, s1, t0) ->
  (forall s', outcome (fetchEmulator emulatorName s') = Resolved (Some device)) ->
  Version_from lib "29" = Resolved v29 ->
  sameOrNewer lib (apiLevel device) v29 = false ->
  outcome run = Resolved port
  /\ traceOf run
     = (t0 ++ [adb "root";
               Exec (getEmulatorCommand cfg ++ " -list-avds");
               Exec (getAvdManagerCommand cfg ++ " list avd");
               adb "remount"])%list.
Proof.
  intros run adb Hstart Hdevice Hv29 Hapi.
  assert (E : exists s', run =
    (Resolved port, s',
     (t0 ++ [adb "root";
             Exec (getEmulatorCommand cfg ++ " -list-avds");
             Exec (getAvdManagerCommand cfg ++ " list avd");
             adb "remount"])%list)).
  { unfold run, mountAsRootWritableSystem, andThen.
    rewrite Hstart, executeAdbCommandWithRetry_quiet.
    match goal with
    | |- context [fetchEmulator emulatorName ?st] =>
        destruct (fetchEmulator_found emulatorName device st (Hdevice st)) as [s3 E3];
        rewrite E3
    end.
    unfold liftSettled. rewrite Hv29, Hapi. unfold resolve at 1.
    rewrite executeAdbCommandWithRetry_quiet. unfold resolve.
    eexists. reflexivity. }
  destruct E as [s' E]. rewrite E. split; reflexivity.
Qed.

(** X8: when the device cannot be looked up after it has been started and
    rooted, [mountAsRootWritableSystem] rejects with a message that names
    the port and the emulator, and the system is not remounted. *)
Theorem mountAsRootWritableSystem_unknown_device emulatorName s port s1 t0 :
  let run := mountAsRootWritableSystem emulatorName s in
  startEmulator emulatorName true true s = (Resolved port, s1, t0) ->
  (forall s', outcome (fetchEmulator emulatorName s') = Resolved None) ->
  outcome run
    = Rejected (SfdxError ("Unable to determine device info: Port = "
                           ++ Js.ofNumber port ++ " , Name = " ++ emulatorName))
  /\ exists lookup,
       traceOf run = (t0 ++ Exec (adbCommandLine "root" port) :: lookup)%list
       /\ Forall (fun e => e = Exec (getEmulatorCommand cfg ++ " -list-avds")
                           \/ e = Exec (getAvdManagerCommand cfg ++ " list avd"))
                 lookup.
Proof.
  intros run Hstart Hdevice.
  unfold run, mountAsRootWritableSystem, andThen.
  rewrite Hstart, executeAdbCommandWithRetry_quiet.
  match goal with
  | |- context [fetchEmulator emulatorName ?st] =>
      specialize (Hdevice st);
      assert (Ht : Forall (fun e => e = Exec (getEmulatorCommand cfg ++ " -list-avds")
                                    \/ e = Exec (getAvdManagerCommand cfg ++ " list avd"))
                          (traceOf (fetchEmulator emulatorName st)));
      [|destruct (fetchEmulator emulatorName st) as [[o s3] t3]]
  end.
  { unfold fetchEmulator, andThen. rewrite resolveEmulatorImage_run.
    destruct (findAvd emulatorName _) as [resolved|];
      [|constructor; [now left | constructor]].
    destruct (negb (Js.truthy resolved)); [constructor; [now left | constructor]|].
    match goal with
    | |- context [fetchEmulators ?st'] =>
        destruct (fetchEmulators_run st') as [devices E]; rewrite E
    end.
    constructor; [now left|]. constructor; [now right | constructor]. }
  unfold outcome, traceOf in *. cbn [fst snd] in *. subst o.
  split; [reflexivity|].
  exists t3. split; [|exact Ht].
  unfold reject. cbn [snd app]. now rewrite app_nil_r.
Qed.

End Responsive.

(** *** Sorting *)

Section Sorting.

Context {A : Type}.
Variable cmp : A -> A -> Z.

(** A consistent comparator, as [Array.prototype.sort] expects it. *)
Hypothesis cmp_antisym : forall a b, Z.sgn (cmp a b) = - Z.sgn (cmp b a).
Hypothesis cmp_trans : forall a b c, cmp a b <= 0 -> cmp b c <= 0 -> cmp a c <= 0.

Lemma insertSorted_perm x l : Permutation (x :: l) (insertSorted cmp x l).
Proof.
  induction l as [|y ys IH]; simpl; [apply Permutation_refl|].
  destruct (cmp x y <=? 0); [apply Permutation_refl|].
  eapply perm_trans; [apply perm_swap | now apply perm_skip].
Qed.

Lemma Array_sort_perm l : Permutation l (Array_sort cmp l).
Proof.
  induction l as [|x l IH]; simpl; [constructor|].
  eapply perm_trans; [apply perm_skip, IH | apply insertSorted_perm].
Qed.

Lemma insertSorted_sorted x l :
  StronglySorted (fun a b => cmp a b <= 0) l ->
  StronglySorted (fun a b => cmp a b <= 0) (insertSorted cmp x l).
Proof.
  induction l as [|y ys IH]; intros Hs; simpl.
  - constructor; constructor.
  - inversion Hs as [|? ? Hys Hy]; subst.
    destruct (Z.leb_spec (cmp x y) 0) as [Hxy|Hxy].
    + constructor; [exact Hs|].
      constructor; [exact Hxy|].
      eapply Forall_impl; [|exact Hy].
      intros z Hyz. now apply (cmp_trans x y z).
    + constructor; [now apply IH|].
      eapply Permutation_Forall; [apply insertSorted_perm|].
      constructor; [|exact Hy].
      pose proof (cmp_antisym x y) as Hs'. lia.
Qed.

Lemma Array_sort_sorted l :
  StronglySorted (fun a b => cmp a b <= 0) (Array_sort cmp l).
Proof.
  induction l as [|x l IH]; simpl; [constructor | now apply insertSorted_sorted].
Qed.

Lemma insertSorted_stable p x l :
  filter (fun a => cmp a p =? 0) (insertSorted cmp x l)
  = filter (fun a => cmp a p =? 0) (x :: l).
Proof.
  induction l as [|y ys IH]; [reflexivity|].
  cbn [insertSorted].
  destruct (Z.leb_spec (cmp x y) 0) as [Hxy|Hxy]; [reflexivity|].
  cbn [filter] in *. rewrite IH.
  destruct (Z.eqb_spec (cmp x p) 0) as [Hx|Hx]; [|reflexivity].
  destruct (Z.eqb_spec (cmp y p) 0) as [Hy|Hy]; [|reflexivity].
  exfalso.
  pose proof (cmp_antisym y p) as Hyp.
  assert (cmp p y <= 0) by lia.
  assert (cmp x y <= 0) by (apply (cmp_trans x p y); lia).
  lia.
Qed.

Lemma Array_sort_stable p l :
  filter (fun a => cmp a p =? 0) (Array_sort cmp l)
  = filter (fun a => cmp a p =? 0) l.
Proof.
  induction l as [|x l IH]; [reflexivity|].
  cbn [Array_sort fold_right]. rewrite insertSorted_stable.
  cbn [filter]. fold (Array_sort cmp l). now rewrite IH.
Qed.

End Sorting.

Lemma StronglySorted_weaken {A} (R R' : A -> A -> Prop) l :
  (forall a b, R a b -> R' a b) -> StronglySorted R l -> StronglySorted R' l.
Proof.
  intros HR Hs. induction Hs as [|a l Hl IH Ha]; constructor; [exact IH|].
  eapply Forall_impl; [|exact Ha]. intros b. apply HR.
Qed.

(** *** The API packages *)

Lemma fetchInstalledPackages_cached s :
  getAndroidSdkRoot cfg <> None ->
  isEmpty lib (packageCache s) = false ->
  fetchInstalledPackages s = (Resolved (packageCache s), s, []).
Proof.
  intros Hroot Hcached. unfold fetchInstalledPackages.
  destruct (getAndroidSdkRoot cfg); [|contradiction].
  unfold andThen, getCache. now rewrite Hcached.
Qed.

Lemma packageWithRequiredEmulatorImages_cached pkg s :
  getAndroidSdkRoot cfg <> None ->
  isEmpty lib (packageCache s) = false ->
  packageWithRequiredEmulatorImages pkg s
  = (Resolved (findImage pkg (systemImages (packageCache s))), s, []).
Proof.
  intros Hroot Hcached.
  unfold packageWithRequiredEmulatorImages, fetchInstalledSystemImages, andThen.
  now rewrite (fetchInstalledPackages_cached _ Hroot Hcached).
Qed.

Lemma keepWithImages_cached s :
  getAndroidSdkRoot cfg <> None ->
  isEmpty lib (packageCache s) = false ->
  forall matchingPlatforms,
    keepWithImages matchingPlatforms s
    = (Resolved (filter (hasImage (packageCache s)) matchingPlatforms), s, []).
Proof.
  intros Hroot Hcached.
  induction matchingPlatforms as [|pkg rest IH]; [reflexivity|].
  cbn [keepWithImages filter].
  unfold andThen, catch. cbv beta.
  rewrite (packageWithRequiredEmulatorImages_cached _ _ Hroot Hcached).
  unfold resolve at 1. cbv iota beta. rewrite IH. unfold hasImage.
  destruct (findImage pkg (systemImages (packageCache s))); reflexivity.
Qed.

Lemma fetchAllAvailableApiPackages_cached s minRuntime :
  let supported :=
    filter (fun pkg => sameOrNewer lib (version pkg) minRuntime)
           (platforms (packageCache s)) in
  getAndroidSdkRoot cfg <> None ->
  isEmpty lib (packageCache s) = false ->
  Version_from lib (minSupportedRuntime cfg) = Resolved minRuntime ->
  supported <> [] ->
  fetchAllAvailableApiPackages true s
  = (Resolved (Array_sort newestFirst (filter (hasImage (packageCache s)) supported)),
     s, []).
Proof.
  intros supported Hroot Hcached Hmin Hsome.
  unfold fetchAllAvailableApiPackages, andThen, liftSettled.
  rewrite Hmin, (fetchInstalledPackages_cached _ Hroot Hcached), Hcached.
  fold supported. destruct supported as [|pkg rest] eqn:E; [contradiction|].
  replace (Z.of_nat (List.length (pkg :: rest)) <? 1) with false
    by (symmetry; apply Z.ltb_ge; simpl; lia).
  now rewrite (keepWithImages_cached _ Hroot Hcached).
Qed.

(** C4: over a cached inventory, the candidates (the platform packages that
    are not older than the minimum supported runtime and have a supported
    emulator image) are returned sorted by descending version, packages of
    equal version in their original order; without an API level the first,
    a package of the highest version, is returned; with an API level the
    first candidate of the [same] version is returned, and the call rejects
    when there is none. *)
Theorem fetchSupportedAndroidAPIPackage_newest s minRuntime :
  let inventory := packageCache s in
  let supported :=
    filter (fun pkg => sameOrNewer lib (version pkg) minRuntime) (platforms inventory) in
  let candidates := filter (hasImage inventory) supported in
  let sorted := Array_sort newestFirst candidates in
  getAndroidSdkRoot cfg <> None ->
  isEmpty lib inventory = false ->
  Version_from lib (minSupportedRuntime cfg) = Resolved minRuntime ->
  supported <> [] ->
  (forall a b, Z.sgn (compare lib a b) = - Z.sgn (compare lib b a)) ->
  (forall a b c, 0 <= compare lib a b -> 0 <= compare lib b c -> 0 <= compare lib a c) ->
  outcome (fetchAllAvailableApiPackages true s) = Resolved sorted
  /\ Permutation candidates sorted
  /\ StronglySorted (fun a b => 0 <= compare lib (version a) (version b)) sorted
  /\ (forall p, filter (tiedWith p) sorted = filter (tiedWith p) candidates)
  /\ outcome (fetchSupportedAndroidAPIPackage None s)
     = match sorted with
       | pkg :: _ => Resolved pkg
       | [] =>
           Rejected (SfdxError (minimumIs
             "Could not locate a supported Android API package with matching emulator images."))
       end
  /\ (forall pkg rest, sorted = pkg :: rest ->
        In pkg candidates
        /\ forall q, In q candidates -> 0 <= compare lib (version pkg) (version q))
  /\ (forall level targetRuntime,
        Js.truthy level = true ->
        Version_from lib level = Resolved targetRuntime ->
        outcome (fetchSupportedAndroidAPIPackage (Some level) s)
        = match filter (fun pkg => same lib (version pkg) targetRuntime) sorted with
          | pkg :: _ => Resolved pkg
          | [] => Rejected (SfdxError (noPackageForLevel (Some level)))
          end).
Proof.
  intros inventory supported candidates sorted Hroot Hcached Hmin Hsome Hanti Htrans.
  pose proof (fetchAllAvailableApiPackages_cached s minRuntime Hroot Hcached Hmin Hsome)
    as Hall. fold inventory supported candidates sorted in Hall.
  assert (Hanti' : forall a b : AndroidPackage Version,
            Z.sgn (newestFirst a b) = - Z.sgn (newestFirst b a)).
  { intros a b. unfold newestFirst.
    pose proof (Hanti (version a) (version b)). lia. }
  assert (Htrans' : forall a b c : AndroidPackage Version,
            newestFirst a b <= 0 -> newestFirst b c <= 0 -> newestFirst a c <= 0).
  { intros a b c. unfold newestFirst. intros H1 H2.
    pose proof (Htrans (version a) (version b) (version c)). lia. }
  assert (Hsorted : StronglySorted
            (fun a b => 0 <= compare lib (version a) (version b)) sorted).
  { eapply StronglySorted_weaken;
      [|apply (Array_sort_sorted newestFirst Hanti' Htrans')].
    intros a b. unfold newestFirst. lia. }
  assert (Hperm : Permutation candidates sorted) by apply Array_sort_perm.
  split; [now rewrite Hall|].
  split; [exact Hperm|].
  split; [exact Hsorted|].
  split.
  { intros p.
    assert (Hext : forall l,
              filter (tiedWith p) l = filter (fun a => newestFirst a p =? 0) l).
    { intros l. apply filter_ext. intros a. unfold tiedWith, newestFirst.
      destruct (Z.eqb_spec (compare lib (version a) (version p)) 0);
        destruct (Z.eqb_spec (compare lib (version a) (version p) * -1) 0);
        try reflexivity; lia. }
    rewrite !Hext. apply (Array_sort_stable newestFirst Hanti' Htrans'). }
  split.
  { unfold fetchSupportedAndroidAPIPackage, targetRuntimeOf, andThen, outcome.
    unfold resolve at 1. rewrite Hall.
    destruct sorted; reflexivity. }
  split.
  { intros pkg rest E. split.
    - eapply Permutation_in; [apply Permutation_sym, Hperm|].
      rewrite E. now left.
    - intros q Hq. rewrite E in Hsorted.
      inversion Hsorted as [|? ? _ Hfirst]; subst.
      apply (Permutation_in _ Hperm) in Hq. rewrite E in Hq.
      destruct Hq as [<-|Hq].
      + pose proof (Hanti (version pkg) (version pkg)). lia.
      + rewrite Forall_forall in Hfirst. now apply Hfirst. }
  intros level targetRuntime Hlevel Htarget.
  unfold fetchSupportedAndroidAPIPackage, targetRuntimeOf, andThen, outcome.
  rewrite Hlevel. unfold liftSettled, andThen. rewrite Htarget.
  unfold resolve at 1. rewrite Hall.
  destruct (filter _ sorted); reflexivity.
Qed.

(** *** The configuration file *)

Lemma without_append c a b :
  without c (a ++ b) = andb (without c a) (without c b).
Proof.
  induction a as [|x a IH]; simpl; [reflexivity|].
  now rewrite IH, andb_assoc.
Qed.

Lemma split_cons sep a : exists x xs, Js.split sep a = x :: xs.
Proof.
  induction a as [|c a [x [xs IH]]]; cbn [Js.split]; [now eexists; eexists|].
  destruct (Ascii.eqb c sep); [now eexists; eexists|].
  rewrite IH. now eexists; eexists.
Qed.

Lemma split_without sep a : without sep a = true -> Js.split sep a = [a].
Proof.
  induction a as [|x a IH]; simpl; [reflexivity|].
  intros H. apply andb_prop in H. destruct H as [Hx Ha].
  apply negb_true_iff in Hx. rewrite Hx, (IH Ha). reflexivity.
Qed.

Lemma split_append sep a b :
  without sep a = true ->
  Js.split sep (a ++ String sep b) = a :: Js.split sep b.
Proof.
  induction a as [|x a IH]; simpl.
  - intros _. now rewrite Ascii.eqb_refl.
  - intros H. apply andb_prop in H. destruct H as [Hx Ha].
    apply negb_true_iff in Hx. rewrite Hx, (IH Ha). reflexivity.
Qed.

Lemma split_snoc sep a b :
  without sep b = true ->
  Js.split sep (a ++ String sep b) = (Js.split sep a ++ [b])%list.
Proof.
  intros Hb. induction a as [|c a IHa].
  - cbn [append Js.split]. rewrite Ascii.eqb_refl.
    now rewrite (split_without _ _ Hb).
  - change (String c a ++ String sep b) with (String c (a ++ String sep b)).
    cbn [Js.split]. rewrite IHa.
    destruct (Ascii.eqb c sep); [reflexivity|].
    destruct (split_cons sep a) as [x [xs E]]. now rewrite E.
Qed.

Lemma serializeConfig_lines config : serializeConfig config = configLines config.
Proof.
  unfold serializeConfig.
  assert (G : forall m acc,
    fold_left (fun configString entry =>
                 configString ++ fst entry ++ "=" ++ snd entry ++ newline) m acc
    = acc ++ configLines m).
  { induction m as [|[k v] m IH]; intros acc; simpl.
    - now rewrite append_empty_r.
    - rewrite IH. repeat (rewrite append_assoc_string; simpl). reflexivity. }
  apply G.
Qed.

Lemma split_configLines config :
  plainEntries config = true ->
  Js.split newlineChar (configLines config)
  = (map entryLine config ++ [EmptyString])%list.
Proof.
  induction config as [|[k v] m IH]; simpl; [reflexivity|].
  intros H. apply andb_prop in H. destruct H as [Hkv Hm].
  unfold plainEntry in Hkv. simpl in Hkv.
  apply andb_prop in Hkv. destruct Hkv as [Hk Hv].
  apply andb_prop in Hk. destruct Hk as [_ Hk].
  apply andb_prop in Hv. destruct Hv as [_ Hv].
  assert (E : k ++ String "="%char (v ++ String newlineChar (configLines m))
              = entryLine (k, v) ++ String newlineChar (configLines m)).
  { unfold entryLine. simpl. repeat (rewrite append_assoc_string; simpl). reflexivity. }
  rewrite E, split_append, (IH Hm); [reflexivity|].
  unfold entryLine. simpl. rewrite without_append. simpl. now rewrite Hk, Hv.
Qed.

Lemma readLine_entry configMap k v :
  without "="%char k = true -> without "="%char v = true ->
  readLine configMap (entryLine (k, v)) = Map_set k v configMap.
Proof.
  intros Hk Hv. unfold readLine, entryLine. cbn [fst snd].
  change (k ++ "=" ++ v) with (k ++ String "="%char v).
  now rewrite (split_append _ _ _ Hk), (split_without _ _ Hv).
Qed.

Lemma Map_set_fresh k v m :
  ~ In k (map fst m) -> Map_set k v m = (m ++ [(k, v)])%list.
Proof.
  induction m as [|[k' v'] m IH]; simpl; [reflexivity|].
  intros H. destruct (String.eqb_spec k' k) as [->|_].
  - exfalso. apply H. now left.
  - rewrite IH; [reflexivity|]. intros Hin. apply H. now right.
Qed.

Lemma fold_readLine config :
  plainEntries config = true ->
  forall acc,
    NoDup (map fst (acc ++ config)%list) ->
    fold_left readLine (map entryLine config ++ [EmptyString])%list acc
    = (acc ++ config)%list.
Proof.
  induction config as [|[k v] m IH]; intros Hplain acc Hnd.
  - simpl. now rewrite app_nil_r.
  - simpl in Hplain. apply andb_prop in Hplain. destruct Hplain as [Hkv Hm].
    unfold plainEntry in Hkv. simpl in Hkv.
    apply andb_prop in Hkv. destruct Hkv as [Hk Hv].
    apply andb_prop in Hk. destruct Hk as [Hk _].
    apply andb_prop in Hv. destruct Hv as [Hv _].
    cbn [map fold_left app fst snd].
    rewrite (readLine_entry _ _ _ Hk Hv).
    rewrite map_app in Hnd. cbn [map fst] in Hnd.
    pose proof (NoDup_remove_2 _ _ _ Hnd) as Hfresh.
    rewrite Map_set_fresh by (intros Hin; apply Hfresh, in_or_app; now left).
    rewrite (IH Hm).
    + now rewrite <- app_assoc.
    + rewrite <- app_assoc. now rewrite map_app.
Qed.

Lemma parseConfig_serializeConfig config :
  distinctKeys config -> plainEntries config = true ->
  parseConfig (serializeConfig config) = config.
Proof.
  intros Hnd Hplain. unfold parseConfig.
  rewrite serializeConfig_lines, (split_configLines _ Hplain).
  now rewrite (fold_readLine _ Hplain []).
Qed.

(** C9: a map whose keys and values contain neither [=] nor a line break
    is read back as it was written, provided the file system returns what
    has just been written to the file. *)
Theorem config_round_trip emulatorName config s :
  let file := configIniPath cfg emulatorName in
  distinctKeys config ->
  plainEntries config = true ->
  readFileSync host file
    (snd (writeFileSync host file (serializeConfig config) (world s)))
    = Resolved (serializeConfig config) ->
  parseConfig (serializeConfig config) = config
  /\ outcome ((writeEmulatorConfig emulatorName config ;;;
               readEmulatorConfig emulatorName) s) = Resolved config.
Proof.
  intros file Hnd Hplain Hfs.
  pose proof (parseConfig_serializeConfig _ Hnd Hplain) as Hround.
  split; [exact Hround|].
  unfold andThen, writeEmulatorConfig, readEmulatorConfig, catch, readFile, outcome.
  fold file.
  destruct (writeFileSync host file (serializeConfig config) (world s)) as [r w].
  cbn [snd] in Hfs. unfold andThen. cbn [world]. rewrite Hfs.
  unfold resolve. cbn [fst]. now rewrite Hround.
Qed.

Lemma Map_get_set_same key value m : Map_get key (Map_set key value m) = Some value.
Proof.
  induction m as [|[k v] m IH]; simpl.
  - now rewrite String.eqb_refl.
  - destruct (String.eqb k key) eqn:E; simpl; rewrite E; [reflexivity | exact IH].
Qed.

Lemma Map_get_set_other key key' value m :
  String.eqb key' key = false ->
  Map_get key (Map_set key' value m) = Map_get key m.
Proof.
  intros Hne. induction m as [|[k v] m IH]; simpl.
  - now rewrite Hne.
  - destruct (String.eqb_spec k key') as [->|Hk]; simpl.
    + now rewrite Hne.
    + now rewrite IH.
Qed.

Lemma Map_get_lowerEntry_other key key' m :
  String.eqb key' key = false ->
  Map_get key (lowerEntry key' m) = Map_get key m.
Proof.
  intros Hne. unfold lowerEntry.
  destruct (Map_get key' m) as [v|]; [|reflexivity].
  destruct (Js.truthy v); [|reflexivity].
  now apply Map_get_set_other.
Qed.

(** The entry [hw.device.name] is not touched before it is read. *)
Lemma deviceName_kept config :
  Map_get "hw.device.name"
    (Map_set "hw.gpu.enabled" "yes"
      (Map_set "hw.gpu.mode" "auto"
        (Map_set "hw.keyboard" "yes"
          (lowerEntry "runtime.network.speed"
            (lowerEntry "runtime.network.latency" config)))))
  = Map_get "hw.device.name" config.
Proof.
  rewrite !Map_get_set_other by reflexivity.
  now rewrite !Map_get_lowerEntry_other by reflexivity.
Qed.

Lemma updatedConfig_skin config deviceName :
  Map_get "hw.device.name" config = Some deviceName ->
  Js.truthy deviceName = true ->
  Map_get "skin.name" (updatedConfig config) = Some (skinFor deviceName).
Proof.
  intros Hd Ht. unfold updatedConfig, applySkin.
  rewrite deviceName_kept, Hd, Ht.
  rewrite !Map_get_set_other by reflexivity.
  apply Map_get_set_same.
Qed.

Lemma skinFor_other deviceName :
  deviceName <> "pixel" -> deviceName <> "pixel_xl" -> skinFor deviceName = deviceName.
Proof.
  intros H1 H2. unfold skinFor.
  apply String.eqb_neq in H1. apply String.eqb_neq in H2.
  now rewrite H1, H2.
Qed.

Lemma updatedConfig_skin_path config deviceName :
  Map_get "hw.device.name" config = Some deviceName ->
  Js.truthy deviceName = true ->
  Map_get "skin.path" (updatedConfig config)
  = Some (sdkRootLocation ++ "/skins/" ++ skinFor deviceName).
Proof.
  intros Hd Ht. unfold updatedConfig, applySkin.
  rewrite deviceName_kept, Hd, Ht.
  rewrite !Map_get_set_other by reflexivity.
  apply Map_get_set_same.
Qed.

(** C8, as amended: when the configuration that is read names a device
    profile, [updateEmulatorConfig] writes a configuration whose skin name
    is set: to [pixel_silver] for the profile [pixel], to
    [pixel_xl_silver] for the profile [pixel_xl], and to the profile name
    itself for every other profile; the skin path is the directory of that
    name under [skins] in the SDK root. *)
Theorem updateEmulatorConfig_skin emulatorName s configFile deviceName :
  let file := configIniPath cfg emulatorName in
  let written := updatedConfig (parseConfig configFile) in
  let skin name := Map_get "skin.name" written = Some name
                   /\ Map_get "skin.path" written
                      = Some (sdkRootLocation ++ "/skins/" ++ name) in
  readFileSync host file (world s) = Resolved configFile ->
  Map_get "hw.device.name" (parseConfig configFile) = Some deviceName ->
  Js.truthy deviceName = true ->
  traceOf (updateEmulatorConfig emulatorName s)
    = [WriteFile file (serializeConfig written)]
  /\ (deviceName = "pixel" -> skin "pixel_silver")
  /\ (deviceName = "pixel_xl" -> skin "pixel_xl_silver")
  /\ (deviceName <> "pixel" -> deviceName <> "pixel_xl" -> skin deviceName).
Proof.
  intros file written skin Hread Hd Ht.
  pose proof (updatedConfig_skin _ _ Hd Ht) as Hskin. fold written in Hskin.
  pose proof (updatedConfig_skin_path _ _ Hd Ht) as Hpath. fold written in Hpath.
  split; [|split; [|split]].
  - unfold updateEmulatorConfig, andThen, readEmulatorConfig, catch, readFile.
    fold file. unfold andThen. rewrite Hread. unfold resolve at 1.
    destruct (parseConfig configFile) as [|e m] eqn:E; [discriminate|].
    unfold Map_size. cbn [List.length].
    replace (Z.of_nat (S (List.length m)) =? 0) with false
      by (symmetry; apply Z.eqb_neq; lia).
    unfold andThen, writeEmulatorConfig. fold file. fold written.
    destruct (writeFileSync host file _ (world s)) as [r w].
    reflexivity.
  - intros ->. split; [exact Hskin | exact Hpath].
  - intros ->. split; [exact Hskin | exact Hpath].
  - intros H1 H2. unfold skin.
    rewrite Hskin, Hpath, (skinFor_other _ H1 H2). split; reflexivity.
Qed.

(** X9: when the configuration file cannot be read, or holds no line with
    an [=], [updateEmulatorConfig] resolves without writing anything. *)
Theorem updateEmulatorConfig_nothing_to_edit emulatorName s :
  let file := configIniPath cfg emulatorName in
  (forall e, readFileSync host file (world s) = Rejected e ->
     updateEmulatorConfig emulatorName s = (Resolved tt, s, []))
  /\ (forall configFile,
        readFileSync host file (world s) = Resolved configFile ->
        parseConfig configFile = [] ->
        updateEmulatorConfig emulatorName s = (Resolved tt, s, [])).
Proof.
  intros file. split.
  - intros e Hread.
    unfold updateEmulatorConfig, andThen, readEmulatorConfig, catch, readFile.
    fold file. unfold andThen. now rewrite Hread.
  - intros configFile Hread Hempty.
    unfold updateEmulatorConfig, andThen, readEmulatorConfig, catch, readFile.
    fold file. unfold andThen. rewrite Hread. unfold resolve at 1.
    now rewrite Hempty.
Qed.

(** X10: the configuration that [updateEmulatorConfig] writes has the
    keyboard and the GPU switched on, whatever was read, and every entry
    under another key than the nine edited ones is as it was read. *)
Theorem updatedConfig_frame config :
  Map_get "hw.keyboard" (updatedConfig config) = Some "yes"
  /\ Map_get "hw.gpu.mode" (updatedConfig config) = Some "auto"
  /\ Map_get "hw.gpu.enabled" (updatedConfig config) = Some "yes"
  /\ (forall key,
        existsb (String.eqb key) editedKeys = false ->
        Map_get key (updatedConfig config) = Map_get key config).
Proof.
  assert (Hskin : forall key m,
            String.eqb "skin.name" key = false -> String.eqb "skin.path" key = false ->
            String.eqb "skin.dynamic" key = false ->
            String.eqb "showDeviceFrame" key = false ->
            Map_get key (applySkin m) = Map_get key m).
  { intros key m H1 H2 H3 H4. unfold applySkin.
    destruct (Js.truthy _); [|reflexivity].
    now rewrite !Map_get_set_other. }
  unfold updatedConfig.
  split; [|split; [|split]].
  - rewrite Hskin by reflexivity.
    rewrite !Map_get_set_other by reflexivity. apply Map_get_set_same.
  - rewrite Hskin by reflexivity.
    rewrite !Map_get_set_other by reflexivity. apply Map_get_set_same.
  - rewrite Hskin by reflexivity. apply Map_get_set_same.
  - intros key Hkey. unfold editedKeys in Hkey. cbn [existsb] in Hkey.
    repeat (apply orb_false_elim in Hkey; destruct Hkey as [? Hkey]).
    repeat match goal with
           | H : String.eqb key _ = false |- _ => rewrite String.eqb_sym in H
           end.
    rewrite Hskin by assumption.
    rewrite !Map_get_set_other by assumption.
    now rewrite !Map_get_lowerEntry_other by assumption.
Qed.

Lemma Map_set_keys key value m :
  map fst (Map_set key value m)
  = if existsb (String.eqb key) (map fst m) then map fst m
    else (map fst m ++ [key])%list.
Proof.
  induction m as [|[k v] m IH]; [reflexivity|].
  cbn [Map_set map fst existsb].
  rewrite (String.eqb_sym key k).
  destruct (String.eqb k key); [reflexivity|].
  cbn [map fst orb]. rewrite IH.
  destruct (existsb (String.eqb key) (map fst m)); reflexivity.
Qed.

Lemma Map_set_distinct key value m :
  distinctKeys m -> distinctKeys (Map_set key value m).
Proof.
  unfold distinctKeys. intros Hnd. rewrite Map_set_keys.
  destruct (existsb (String.eqb key) (map fst m)) eqn:E; [exact Hnd|].
  apply NoDup_app; [exact Hnd | repeat constructor; intros [] | ].
  intros k Hin [Hk|[]]. subst k.
  assert (existsb (String.eqb key) (map fst m) = true); [|congruence].
  apply existsb_exists. exists key. split; [exact Hin | apply String.eqb_refl].
Qed.

Lemma split_lines lines :
  lines <> [] ->
  Forall (fun line => without newlineChar line = true) lines ->
  Js.split newlineChar (String.concat newline lines) = lines.
Proof.
  induction lines as [|x [|y rest] IH]; intros Hne Hall; [contradiction | |].
  - cbn [String.concat]. apply split_without. now inversion Hall.
  - inversion Hall as [|? ? Hx Hrest]. subst.
    change (String.concat newline (x :: y :: rest))
      with (x ++ String newlineChar (String.concat newline (y :: rest))).
    rewrite (split_append _ _ _ Hx), IH; [reflexivity | discriminate | exact Hrest].
Qed.

(** Lines that do not set a key leave its entry as it is. *)
Lemma readLines_other key lines :
  (forall line v rest, In line lines -> Js.split "="%char line <> key :: v :: rest) ->
  forall acc, Map_get key (fold_left readLine lines acc) = Map_get key acc.
Proof.
  induction lines as [|line lines IH]; intros Hother acc; [reflexivity|].
  cbn [fold_left]. rewrite IH by (intros l v rest Hin; apply Hother; now right).
  unfold readLine.
  destruct (Js.split "="%char line) as [|k [|v rest]] eqn:E; try reflexivity.
  apply Map_get_set_other. apply String.eqb_neq. intros ->.
  apply (Hother line v rest); [now left | exact E].
Qed.

(** X11: the map that [readEmulatorConfig] builds from a file has no key
    twice, whatever the file holds, and a key has the value of the last
    line that sets it, whatever lines come before that line and after it. *)
Theorem parseConfig_distinct configFile :
  distinctKeys (parseConfig configFile)
  /\ (forall before after key value,
        configFile
        = String.concat newline (before ++ (key ++ "=" ++ value)%string :: after)%list ->
        Forall (fun line => without newlineChar line = true) (before ++ after)%list ->
        without "="%char key = true -> without newlineChar key = true ->
        without "="%char value = true -> without newlineChar value = true ->
        (forall line v rest,
           In line after -> Js.split "="%char line <> key :: v :: rest) ->
        Map_get key (parseConfig configFile) = Some value).
Proof.
  assert (Hfold : forall lines acc,
            distinctKeys acc -> distinctKeys (fold_left readLine lines acc)).
  { induction lines as [|line lines IH]; intros acc Hacc; [exact Hacc|].
    cbn [fold_left]. apply IH. unfold readLine.
    destruct (Js.split "="%char line) as [|k [|v rest]]; try exact Hacc.
    now apply Map_set_distinct. }
  split.
  - apply Hfold. constructor.
  - intros before after key value -> Hlines Hk Hkn Hv Hvn Hlast. unfold parseConfig.
    apply Forall_app in Hlines. destruct Hlines as [Hbefore Hafter].
    rewrite split_lines.
    + rewrite fold_left_app. cbn [fold_left].
      rewrite (readLines_other key after Hlast).
      change (key ++ "=" ++ value) with (entryLine (key, value)).
      rewrite (readLine_entry _ _ _ Hk Hv). apply Map_get_set_same.
    + destruct before; discriminate.
    + apply Forall_app. split; [exact Hbefore|].
      constructor; [|exact Hafter].
      rewrite without_append. cbn [append without]. now rewrite Hkn, Hvn.
Qed.

(** *** The inventory and the other operations *)

(** X12: the inventory is memoised.  Without an SDK root
    [fetchInstalledPackages] rejects without running a command; once a
    call has resolved with an inventory that is not empty, the next call
    resolves with the same inventory and runs no command. *)
Theorem fetchInstalledPackages_memoised s :
  (getAndroidSdkRoot cfg = None ->
     fetchInstalledPackages s
     = (Rejected (SfdxError "Android SDK root is not set."), s, []))
  /\ (forall inventory s' trace,
        fetchInstalledPackages s = (Resolved inventory, s', trace) ->
        isEmpty lib inventory = false ->
        packageCache s' = inventory
        /\ fetchInstalledPackages s' = (Resolved inventory, s', [])).
Proof.
  split.
  - intros Hroot. unfold fetchInstalledPackages. now rewrite Hroot.
  - intros inventory s' trace Hfetch Hfull.
    assert (Hroot : getAndroidSdkRoot cfg <> None).
    { intros Hroot. unfold fetchInstalledPackages in Hfetch.
      rewrite Hroot in Hfetch. discriminate. }
    assert (Hcache : packageCache s' = inventory).
    { unfold fetchInstalledPackages in Hfetch.
      destruct (getAndroidSdkRoot cfg); [|contradiction].
      unfold andThen, getCache in Hfetch.
      destruct (negb (isEmpty lib (packageCache s))).
      - unfold resolve in Hfetch. now inversion Hfetch.
      - rewrite executeCommandAsync_run in Hfetch.
        destruct (fst (runCommand host _ (world s))) as [out err|e];
          [|discriminate].
        cbn [stdout] in Hfetch.
        destruct (andb _ _).
        + unfold liftSettled, andThen in Hfetch.
          destruct (parseRawPackagesString lib out); [|discriminate].
          unfold setCache in Hfetch. cbn in Hfetch. now inversion Hfetch.
        + unfold resolve in Hfetch. cbn in Hfetch. now inversion Hfetch. }
    split; [exact Hcache|].
    rewrite <- Hcache. apply fetchInstalledPackages_cached; [exact Hroot|].
    now rewrite Hcache.
Qed.

(** X13: [fetchSupportedEmulatorImagePackage] replaces every failure, of
    whatever step and with whatever reason, by one and the same
    rejection. *)
Theorem fetchSupportedEmulatorImagePackage_rejection apiLevel s :
  match outcome (fetchSupportedEmulatorImagePackage apiLevel s) with
  | Resolved _ => True
  | Rejected e => e = SfdxError "Could not find android emulator packages."
  end.
Proof.
  unfold fetchSupportedEmulatorImagePackage, catch, outcome.
  match goal with
  | |- context [let (_, _) := ?p s in _] => destruct (p s) as [[o s1] t1]
  end.
  destruct o; [exact I | reflexivity].
Qed.



(** X15: [launchNativeApp] installs the bundle before it launches the app
    only when a bundle path that is not blank is given; when the
    installation reports an error the call rejects and the app is not
    launched. *)
Theorem launchNativeApp_steps prefixes compName projectDir appBundlePath targetApp
    targetAppArguments launchActivity portNumber serverAddress serverPort s :
  let launchCmd :=
    adbCommandLine
      (launchCommand prefixes compName projectDir targetApp targetAppArguments
         launchActivity serverAddress serverPort) portNumber in
  let run :=
    launchNativeApp prefixes compName projectDir appBundlePath targetApp
      targetAppArguments launchActivity portNumber serverAddress serverPort s in
  (bundleGiven appBundlePath = None -> traceOf run = [Exec launchCmd])
  /\ (forall bundle,
        bundleGiven appBundlePath = Some bundle ->
        let installCmd := adbCommandLine (installCommand bundle) portNumber in
        let r := fst (runCommand host installCmd (world s)) in
        (reportsError (gatherOutput r) = true ->
           outcome run = Rejected (SfdxError (gatherOutput r))
           /\ traceOf run = [Exec installCmd])
        /\ (reportsError (gatherOutput r) = false ->
              traceOf run = [Exec installCmd; Exec launchCmd])).
Proof.
  intros launchCmd run. unfold run, launchNativeApp. split.
  - intros ->. unfold andThen. unfold resolve at 1.
    rewrite executeAdbCommand_run. cbv zeta. fold launchCmd.
    destruct (reportsError _); reflexivity.
  - intros bundle Hbundle. rewrite Hbundle. unfold andThen.
    rewrite executeAdbCommand_run. cbv zeta.
    destruct (reportsError _).
    + split; [intros _; split; reflexivity | discriminate].
    + split; [discriminate | intros _].
      rewrite executeAdbCommand_run. cbv zeta. fold launchCmd.
      destruct (reportsError _); reflexivity.
Qed.

(** X16: a path converted by [convertToUnixPath] holds no backslash, and a
    path without a backslash is not changed; so converting twice is
    converting once. *)
Theorem convertToUnixPath_unix dirPath :
  without backslash (convertToUnixPath dirPath) = true
  /\ (without backslash dirPath = true -> convertToUnixPath dirPath = dirPath)
  /\ convertToUnixPath (convertToUnixPath dirPath) = convertToUnixPath dirPath.
Proof.
  assert (Hno : forall p, without backslash (convertToUnixPath p) = true).
  { induction p as [|c p IH]; [reflexivity|].
    cbn [convertToUnixPath].
    destruct (Ascii.eqb c backslash) eqn:Ec.
    - destruct p as [|c' p]; [reflexivity|].
      destruct (Ascii.eqb c' backslash); [exact IH|].
      cbn [without]. now rewrite IH.
    - cbn [without]. now rewrite Ec, IH. }
  assert (Hid : forall p, without backslash p = true -> convertToUnixPath p = p).
  { induction p as [|c p IH]; [reflexivity|].
    cbn [without convertToUnixPath]. intros H.
    apply andb_prop in H. destruct H as [Hc Hp].
    apply negb_true_iff in Hc. now rewrite Hc, (IH Hp). }
  split; [apply Hno | split; [apply Hid | apply Hid, Hno]].
Qed.

Lemma findPort_sound emulatorName ports :
  forall s port,
    outcome (findPort emulatorName ports s) = Resolved (Some port) ->
    In port ports
    /\ exists w,
         let r := fst (runCommand host (adbCommandLine "emu avd name" port) w) in
         reportsError (gatherOutput r) = false
         /\ Js.trim (firstLine (attemptStdout r)) = emulatorName.
Proof.
  induction ports as [|p rest IH]; intros s port; [discriminate|].
  cbn [findPort]. unfold andThen, fetchEmulatorNameFromPort.
  unfold andThen. rewrite executeAdbCommand_run. cbv zeta.
  destruct (reportsError _) eqn:Er; [discriminate|].
  unfold resolve at 1.
  destruct (String.eqb_spec
              (Js.trim (firstLine (attemptStdout
                 (fst (runCommand host (adbCommandLine "emu avd name" p) (world s))))))
              emulatorName) as [Hname|Hname].
  - unfold resolve, outcome. cbn [fst]. intros H. inversion H; subst port.
    split; [now left|]. exists (world s). cbv zeta. now split.
  - match goal with
    | |- context [findPort emulatorName rest ?st] =>
        specialize (IH st port); destruct (findPort emulatorName rest st) as [[o s2] t2]
    end.
    unfold outcome in *. cbn [fst] in *. intros H.
    destruct (IH H) as [Hin Hw]. split; [now right | exact Hw].
Qed.

(** X17: [emulatorHasPort] never rejects, and a port that it resolves with
    is one of the ports that [adb devices] has listed, on which the
    emulator has answered the name query, without an error marker, with
    the name that was asked for. *)
Theorem emulatorHasPort_sound emulatorName s :
  (exists found, outcome (emulatorHasPort emulatorName s) = Resolved found)
  /\ (forall port,
        outcome (emulatorHasPort emulatorName s) = Resolved (Some port) ->
        (exists out err,
           fst (runCommand host (getAdbShellCommand cfg ++ " devices") (world s))
           = ExecResolved out err
           /\ In port (parsePorts out))
        /\ exists w,
             let r := fst (runCommand host (adbCommandLine "emu avd name" port) w) in
             reportsError (gatherOutput r) = false
             /\ Js.trim (firstLine (attemptStdout r)) = emulatorName).
Proof.
  split.
  - unfold emulatorHasPort, catch.
    match goal with
    | |- context [let (_, _) := ?p s in _] => destruct (p s) as [[o s1] t1]
    end.
    destruct o; eexists; reflexivity.
  - intros port. unfold emulatorHasPort, catch, andThen, getAllCurrentlyUsedAdbPorts.
    unfold andThen. rewrite executeCommandAsync_run.
    destruct (fst (runCommand host _ (world s))) as [out err|e]; [|discriminate].
    cbn [stdout]. unfold resolve at 1.
    match goal with
    | |- context [findPort emulatorName ?ports ?st] =>
        pose proof (findPort_sound emulatorName ports st port) as Hsound;
        destruct (findPort emulatorName ports st) as [[o s2] t2]
    end.
    unfold outcome in *. cbn [fst] in *.
    destruct o as [found|e]; cbn [fst]; [|discriminate].
    intros H. destruct (Hsound H) as [Hin Hw].
    split; [|exact Hw].
    exists out, err. split; [reflexivity|].
    destruct (Js.truthy out); [exact Hin | destruct Hin].
Qed.

Lemma replaceSeparators_white c s :
  Js.isWhite c = true ->
  Js.replaceSeparators (String c s) = String c (Js.replaceSeparators s).
Proof.
  intros Hc. cbn [Js.replaceSeparators].
  destruct (Ascii.eqb_spec c "_"%char) as [->|_]; [discriminate|].
  destruct (Ascii.eqb_spec c "-"%char) as [->|_]; [discriminate | reflexivity].
Qed.

Lemma trimStart_replaceSeparators s :
  Js.trimStart (Js.replaceSeparators (Js.trimStart s))
  = Js.trimStart (Js.replaceSeparators s).
Proof.
  induction s as [|c s IH]; [reflexivity|].
  cbn [Js.trimStart]. destruct (Js.isWhite c) eqn:Hc; [|reflexivity].
  rewrite (replaceSeparators_white _ _ Hc). cbn [Js.trimStart]. now rewrite Hc.
Qed.

Lemma trimEnd_replaceSeparators s :
  Js.trimEnd (Js.replaceSeparators (Js.trimEnd s))
  = Js.trimEnd (Js.replaceSeparators s).
Proof.
  induction s as [|c s IH]; [reflexivity|].
  cbn [Js.trimEnd]. destruct (Js.trimEnd s) as [|x t] eqn:E.
  - cbn [Js.replaceSeparators Js.trimEnd] in IH.
    destruct (Js.isWhite c) eqn:Hc.
    + rewrite (replaceSeparators_white _ _ Hc). cbn [Js.replaceSeparators Js.trimEnd].
      now rewrite <- IH, Hc.
    + cbn [Js.replaceSeparators Js.trimEnd]. now rewrite <- IH.
  - change (Js.replaceSeparators (String c (String x t)))
      with (String (if orb (Ascii.eqb c "_") (Ascii.eqb c "-") then " "%char else c)
                   (Js.replaceSeparators (String x t))).
    change (Js.replaceSeparators (String c s))
      with (String (if orb (Ascii.eqb c "_") (Ascii.eqb c "-") then " "%char else c)
                   (Js.replaceSeparators s)).
    cbn [Js.trimEnd]. now rewrite IH.
Qed.

Lemma trimStart_trimEnd s : Js.trimStart (Js.trimEnd s) = Js.trimEnd (Js.trimStart s).
Proof.
  induction s as [|c s IH]; [reflexivity|].
  cbn [Js.trimStart Js.trimEnd].
  destruct (Js.isWhite c) eqn:Hc.
  - destruct (Js.trimEnd s) as [|x t] eqn:E.
    + now rewrite <- IH.
    + cbn [Js.trimStart]. now rewrite Hc, <- IH.
  - cbn [Js.trimEnd].
    destruct (Js.trimEnd s); cbn [Js.trimStart]; now rewrite Hc.
Qed.

Lemma displayName_trim s : displayName (Js.trim s) = displayName s.
Proof.
  unfold displayName, Js.trim.
  rewrite <- (trimStart_trimEnd (Js.replaceSeparators (Js.trimEnd (Js.trimStart s)))).
  rewrite trimEnd_replaceSeparators.
  rewrite trimStart_trimEnd.
  now rewrite trimStart_replaceSeparators.
Qed.

(** C7, as amended: [resolveEmulatorImage] never rejects.  Every line of
    what [-list-avds] prints counts as a listed device, also an empty one.
    The call resolves with an id exactly when some line and the given name
    are equal after [_] and [-] have been replaced by spaces and the ends
    trimmed, letter case being significant; the id is the first such line,
    trimmed, and is equal to the name in the same sense; two names that
    differ only in [_], [-] and spaces resolve alike.  When the output is
    empty or ends with a line break it has an empty line, so a name that
    is blank after the replacement resolves as well: to the empty id,
    unless a line made of separators and white space comes first. *)
Theorem resolveEmulatorImage_matches emulatorName s :
  let listing :=
    fst (runCommand host (getEmulatorCommand cfg ++ " -list-avds") (world s)) in
  let lines :=
    match listing with
    | ExecResolved out _ => Js.split newlineChar out
    | ExecRejected _ => []
    end in
  let matches avd := String.eqb (displayName avd) (displayName emulatorName) in
  let result := outcome (resolveEmulatorImage emulatorName s) in
  result = Resolved (option_map Js.trim (find matches lines))
  /\ ((exists id, result = Resolved (Some id))
      <-> exists avd, In avd lines /\ displayName avd = displayName emulatorName)
  /\ (forall id, result = Resolved (Some id) -> displayName id = displayName emulatorName)
  /\ (forall other, displayName other = displayName emulatorName ->
        resolveEmulatorImage other s = resolveEmulatorImage emulatorName s)
  /\ (forall out err,
        listing = ExecResolved out err ->
        out = EmptyString \/ (exists body, out = body ++ newline) ->
        In EmptyString lines
        /\ (displayName emulatorName = EmptyString ->
              (exists id, result = Resolved (Some id) /\ displayName id = EmptyString)
              /\ ((forall avd, In avd lines -> displayName avd = EmptyString ->
                     avd = EmptyString) ->
                  result = Resolved (Some EmptyString)))).
Proof.
  intros listing lines matches result.
  assert (Hresult : result = Resolved (option_map Js.trim (find matches lines))).
  { unfold result. rewrite resolveEmulatorImage_run. unfold outcome. cbn [fst].
    now rewrite findAvd_find. }
  assert (Hfound : forall avd, In avd lines ->
            displayName avd = displayName emulatorName ->
            exists first, find matches lines = Some first).
  { intros avd Hin Hd. destruct (find matches lines) as [first|] eqn:E.
    - now exists first.
    - exfalso. apply (find_none _ _ E) in Hin. unfold matches in Hin.
      rewrite Hd, String.eqb_refl in Hin. discriminate. }
  assert (Hid : forall id, result = Resolved (Some id) ->
            exists avd, In avd lines
                        /\ displayName avd = displayName emulatorName
                        /\ id = Js.trim avd).
  { intros id H. rewrite Hresult in H.
    destruct (find matches lines) as [avd|] eqn:E; [|discriminate].
    apply find_some in E. destruct E as [Hin Hm]. apply String.eqb_eq in Hm.
    exists avd. cbn [option_map] in H. inversion H. auto. }
  split; [exact Hresult|].
  split; [|split; [|split]].
  - split.
    + intros [id H]. destruct (Hid id H) as [avd [Hin [Hd _]]]. eauto.
    + intros [avd [Hin Hd]]. destruct (Hfound avd Hin Hd) as [first E].
      rewrite Hresult, E. eexists. reflexivity.
  - intros id H. destruct (Hid id H) as [avd [_ [Hd ->]]].
    now rewrite displayName_trim.
  - intros other Hother. rewrite !resolveEmulatorImage_run, !findAvd_find.
    now rewrite Hother.
  - intros out err Hlisting Hout.
    assert (Hempty : In EmptyString lines).
    { unfold lines. rewrite Hlisting. destruct Hout as [-> | [body ->]].
      - left. reflexivity.
      - unfold newline. rewrite split_snoc by reflexivity.
        apply in_or_app. right. left. reflexivity. }
    split; [exact Hempty|]. intros Hblank.
    destruct (Hfound EmptyString Hempty) as [first E];
      [now rewrite Hblank|].
    pose proof (find_some _ _ E) as [Hin Hm]. apply String.eqb_eq in Hm.
    rewrite Hblank in Hm.
    split.
    + exists (Js.trim first). rewrite Hresult, E. split; [reflexivity|].
      now rewrite displayName_trim.
    + intros Hplain. rewrite Hresult, E.
      now rewrite (Hplain first Hin Hm).
Qed.

(** X19: the id that [resolveEmulatorImage] resolves a name to is resolved
    to itself: a caller may pass the display name or the id that an
    earlier call has returned, with the same result. *)
Theorem resolveEmulatorImage_fixpoint emulatorName s id :
  outcome (resolveEmulatorImage emulatorName s) = Resolved (Some id) ->
  resolveEmulatorImage id s = resolveEmulatorImage emulatorName s.
Proof.
  rewrite !resolveEmulatorImage_run, !findAvd_find. unfold outcome. cbn [fst].
  intros H.
  destruct (find _ (listedAVDs s)) as [avd|] eqn:E; [|discriminate].
  cbn [option_map] in H. inversion H as [Hid].
  destruct (find_some _ _ E) as [_ Hm]. apply String.eqb_eq in Hm.
  rewrite displayName_trim, Hm, E. reflexivity.
Qed.

Lemma ofNumber_fourDigits n :
  1000 <= n <= 9999 -> Js.ofNumber n = fourDigits n.
Proof.
  intros Hn.
  assert (Hall : forallb (fun m => String.eqb (Js.ofNumber m) (fourDigits m))
                         fourDigitNumbers = true) by (vm_compute; reflexivity).
  rewrite forallb_forall in Hall. apply String.eqb_eq, Hall.
  unfold fourDigitNumbers. apply in_map_iff.
  exists (Z.to_nat (n - 1000)). split; [lia|]. apply in_seq. lia.
Qed.

Lemma nat_of_digitChar d :
  0 <= d <= 9 -> nat_of_ascii (digitChar d) = (48 + Z.to_nat d)%nat.
Proof.
  intros Hd. unfold digitChar. apply nat_ascii_embedding. lia.
Qed.

Lemma fourDigits_value n :
  1000 <= n <= 9999 ->
  exists d3 d2 d1 d0,
    fourDigits n
    = String (digitChar d3) (String (digitChar d2)
        (String (digitChar d1) (String (digitChar d0) EmptyString)))
    /\ n = 1000 * d3 + 100 * d2 + 10 * d1 + d0
    /\ 0 <= d3 <= 9 /\ 0 <= d2 <= 9 /\ 0 <= d1 <= 9 /\ 0 <= d0 <= 9.
Proof.
  intros Hn.
  exists (n / 10 / 10 / 10), (n / 10 / 10 mod 10), (n / 10 mod 10), (n mod 10).
  split; [reflexivity|].
  pose proof (Z.div_mod n 10). pose proof (Z.mod_pos_bound n 10).
  pose proof (Z.div_mod (n / 10) 10). pose proof (Z.mod_pos_bound (n / 10) 10).
  pose proof (Z.div_mod (n / 10 / 10) 10).
  pose proof (Z.mod_pos_bound (n / 10 / 10) 10).
  generalize dependent (n / 10 / 10 / 10). generalize dependent (n / 10 / 10 mod 10).
  generalize dependent (n / 10 / 10). generalize dependent (n / 10 mod 10).
  generalize dependent (n / 10). generalize dependent (n mod 10).
  intros. lia.
Qed.

Lemma defaultCompare_byValue a b :
  1000 <= a <= 9999 -> 1000 <= b <= 9999 -> defaultCompare a b = byValue a b.
Proof.
  intros Ha Hb. unfold defaultCompare. cbv zeta.
  rewrite (ofNumber_fourDigits a Ha), (ofNumber_fourDigits b Hb).
  destruct (fourDigits_value a Ha) as (a3 & a2 & a1 & a0 & -> & Hav & ? & ? & ? & ?).
  destruct (fourDigits_value b Hb) as (b3 & b2 & b1 & b0 & -> & Hbv & ? & ? & ? & ?).
  cbn [Js.ltb]. rewrite !nat_of_digitChar by assumption.
  unfold byValue.
  repeat match goal with
         | |- context [Nat.ltb ?x ?y] => destruct (Nat.ltb_spec x y)
         end;
    destruct (Z.compare_spec a b); try reflexivity; exfalso; lia.
Qed.

Lemma insertSorted_agree {A} (cmp cmp' : A -> A -> Z) x ys :
  (forall y, In y ys -> cmp x y = cmp' x y) ->
  insertSorted cmp x ys = insertSorted cmp' x ys.
Proof.
  induction ys as [|y ys IH]; intros Hagree; [reflexivity|].
  cbn [insertSorted]. rewrite (Hagree y) by now left.
  rewrite IH by (intros z Hz; apply Hagree; now right). reflexivity.
Qed.

Lemma Array_sort_agree {A} (cmp cmp' : A -> A -> Z) l :
  (forall a b, In a l -> In b l -> cmp a b = cmp' a b) ->
  Array_sort cmp l = Array_sort cmp' l.
Proof.
  induction l as [|x l IH]; intros Hagree; [reflexivity|].
  cbn [Array_sort fold_right]. fold (Array_sort cmp l). fold (Array_sort cmp' l).
  rewrite IH by (intros a b Ha Hb; apply Hagree; now right).
  apply insertSorted_agree. intros y Hy. apply Hagree; [now left | right].
  eapply Permutation_in; [apply Permutation_sym, Array_sort_perm | exact Hy].
Qed.

Lemma sorted_last_is_largest l :
  StronglySorted (fun a b => a <= b) l ->
  forall x, In x l -> x <= hd 0 (rev l).
Proof.
  induction 1 as [|a l Hl IH Ha]; intros x Hx; [destruct Hx|].
  cbn [rev]. destruct l as [|b l'].
  - destruct Hx as [<-|[]]. cbn. lia.
  - assert (Hhd : hd 0 (rev (b :: l') ++ [a]) = hd 0 (rev (b :: l'))).
    { cbn [rev]. destruct (rev l'); reflexivity. }
    rewrite Hhd. destruct Hx as [<-|Hx]; [|now apply IH].
    rewrite Forall_forall in Ha.
    assert (Hlast : In (hd 0 (rev (b :: l'))) (b :: l')).
    { apply in_rev. cbn [rev]. destruct (rev l'); cbn; auto. }
    now apply Ha.
Qed.

(** X20: when every active port has four digits, as the ports of the
    emulators have, [getNextAvailableAdbPort] computes the largest active
    port plus 2. *)
Theorem nextPort_four_digits ports :
  ports <> [] ->
  (forall p, In p ports -> 1000 <= p <= 9999) ->
  In (nextPort ports - 2) ports
  /\ forall p, In p ports -> p <= nextPort ports - 2.
Proof.
  intros Hne Hrange. unfold nextPort.
  destruct ports as [|p0 ports]; [contradiction|].
  replace (0 <? Z.of_nat (List.length (p0 :: ports))) with true
    by (symmetry; apply Z.ltb_lt; simpl; lia).
  set (l := p0 :: ports) in *.
  rewrite (Array_sort_agree defaultCompare byValue l)
    by (intros a b Ha Hb; apply defaultCompare_byValue; now apply Hrange).
  assert (Hsorted : StronglySorted (fun a b => a <= b) (Array_sort byValue l)).
  { eapply StronglySorted_weaken; [|apply (Array_sort_sorted byValue)].
    - intros a b. unfold byValue. destruct (Z.compare_spec a b); lia.
    - intros a b. unfold byValue.
      destruct (Z.compare_spec a b), (Z.compare_spec b a); lia.
    - intros a b c. unfold byValue.
      destruct (Z.compare_spec a b), (Z.compare_spec b c), (Z.compare_spec a c); lia. }
  pose proof (Array_sort_perm byValue l) as Hperm.
  replace (hd 0 (rev (Array_sort byValue l)) + 2 - 2)
    with (hd 0 (rev (Array_sort byValue l))) by lia.
  split.
  - apply (Permutation_in _ (Permutation_sym Hperm)), in_rev.
    destruct (rev (Array_sort byValue l)) as [|q qs] eqn:E; [|now left].
    apply (f_equal (@List.length Z)) in E. rewrite length_rev in E.
    rewrite <- (Permutation_length Hperm) in E. discriminate.
  - intros p Hp. apply sorted_last_is_largest; [exact Hsorted|].
    now apply (Permutation_in _ Hperm).
Qed.

(** X18: with emulators running, the port that [getNextAvailableAdbPort]
    resolves with is always 2 above one of the ports in use; without any,
    it is the default port. *)
Theorem nextPort_above_active ports :
  (ports <> [] -> In (nextPort ports - 2) ports)
  /\ (ports = [] -> nextPort ports = defaultAdbPort cfg).
Proof.
  split; [|intros ->; reflexivity].
  intros Hne. unfold nextPort.
  destruct ports as [|p ports]; [contradiction|].
  replace (0 <? Z.of_nat (List.length (p :: ports))) with true
    by (symmetry; apply Z.ltb_lt; simpl; lia).
  assert (Hperm : Permutation (p :: ports) (rev (Array_sort defaultCompare (p :: ports)))).
  { eapply perm_trans; [apply Array_sort_perm | apply Permutation_rev]. }
  destruct (rev (Array_sort defaultCompare (p :: ports))) as [|q sorted] eqn:E.
  - apply Permutation_sym, Permutation_nil in Hperm. discriminate.
  - cbn [hd]. replace (q + 2 - 2) with q by lia.
    apply (Permutation_in _ (Permutation_sym Hperm)). now left.
Qed.

End Model.

(** ** The model on concrete hosts *)

Lemma executeAdbCommandWithRetry_exhausted_witness :
  let s := @mkState nat Demo.Version 0%nat Demo.emptyInventory in
  let adbCmd := adbCommandLine Demo.settings "root" 5554 in
  let run :=
    executeAdbCommandWithRetry Demo.alwaysFailing Demo.settings "root" 5554 2 1000 s in
  outcome run
    = Rejected (SfdxError
        (gatherOutput (nthAttempt Demo.alwaysFailing adbCmd 1000 2 (world s))))
  /\ traceOf run = retryTrace adbCmd 1000 2
  /\ countExec adbCmd (traceOf run) = 3%nat.
Proof.
  intros s adbCmd run.
  apply (executeAdbCommandWithRetry_exhausted Demo.alwaysFailing Demo.settings
           "root" 5554 2 1000 s).
  - lia.
  - intros j Hj.
    destruct j as [|[|[|j]]]; [reflexivity | reflexivity | reflexivity |].
    exfalso. simpl in Hj. lia.
Defined.

(** C1, as it is stated, fails: after two failing attempts the rejection
    carries the output of the second attempt only. *)
Lemma retry_detail_is_last_attempt_only :
  let s := @mkState nat Demo.Version 0%nat Demo.emptyInventory in
  let adbCmd := adbCommandLine Demo.settings "root" 5554 in
  let failing := Demo.alwaysFailing in
  let run := executeAdbCommandWithRetry failing Demo.settings "root" 5554 1 1000 s in
  reportsError (gatherOutput (nthAttempt failing adbCmd 1000 0 (world s))) = true
  /\ reportsError (gatherOutput (nthAttempt failing adbCmd 1000 1 (world s))) = true
  /\ attemptStdout (nthAttempt failing adbCmd 1000 0 (world s)) = "error: attempt 0"
  /\ outcome run = Rejected (SfdxError (newline ++ "error: attempt 1"))
  /\ Js.includes (newline ++ "error: attempt 1") "error: attempt 0" = false.
Proof.
  vm_compute. repeat split.
Qed.

Lemma attempt_fails_iff_marker_witness :
  let s := @mkState nat Demo.Version 0%nat Demo.emptyInventory in
  let adbCmd := adbCommandLine Demo.settings "shell getprop" 5554 in
  let run :=
    executeAdbCommandWithRetry Demo.moody Demo.settings "shell getprop" 5554 3 1000 s in
  nthAttempt Demo.moody adbCmd 1000 0 (world s)
    = ExecResolved EmptyString "ERROR: device offline"
  /\ nthAttempt Demo.moody adbCmd 1000 1 (world s)
     = ExecRejected "Command failed with exit code 1"
  /\ outcome run = Resolved EmptyString
  /\ traceOf run = [Exec adbCmd; Sleep 1000; Exec adbCmd].
Proof.
  intros s adbCmd run.
  split; [reflexivity | split; [reflexivity|]].
  destruct (attempt_fails_iff_marker Demo.moody Demo.settings
              "shell getprop" 5554 3 1000 1 s) as [Hok _].
  - lia.
  - simpl. lia.
  - intros j Hj. destruct j as [|j]; [reflexivity | exfalso; lia].
  - apply Hok. reflexivity.
Defined.

(** C2, as it is stated, fails: the standard error ends with [err] and the
    standard output begins with [or:], so their concatenation contains the
    marker, yet the attempt is a success and the call resolves with the
    standard output after one run. *)
Lemma marker_across_streams_is_not_found :
  let s := @mkState nat Demo.Version 0%nat Demo.emptyInventory in
  let adbCmd := adbCommandLine Demo.settings "shell getprop" 5554 in
  let run :=
    executeAdbCommandWithRetry Demo.straddling Demo.settings "shell getprop" 5554 3 1000 s in
  nthAttempt Demo.straddling adbCmd 1000 0 (world s)
    = ExecResolved "or: device offline" "err"
  /\ Js.includes (Js.toLowerCase (EmptyString ++ "err" ++ "or: device offline")) "error:"
     = true
  /\ outcome run = Resolved "or: device offline"
  /\ traceOf run = [Exec adbCmd].
Proof.
  vm_compute. repeat split.
Qed.

(** C3: the ports are sorted by [sort()] without a comparator, that is as
    strings, so with emulators on the ports 9998 and 10000 the largest
    element after sorting is 9998 and the next port is 10000, a port that
    is in use, where the largest port plus 2 is 10002. *)
Theorem getNextAvailableAdbPort_sorts_as_strings :
  let s := @mkState nat Demo.Version 0%nat Demo.emptyInventory in
  let host := Demo.attached [9998; 10000] in
  outcome (getAllCurrentlyUsedAdbPorts host Demo.settings s) = Resolved [9998; 10000]
  /\ Array_sort defaultCompare [9998; 10000] = [10000; 9998]
  /\ outcome (getNextAvailableAdbPort host Demo.settings s) = Resolved 10000.
Proof.
  vm_compute. repeat split.
Qed.

Example getNextAvailableAdbPort_two_ports :
  let s := @mkState nat Demo.Version 0%nat Demo.emptyInventory in
  outcome (getNextAvailableAdbPort (Demo.attached [5554; 5556]) Demo.settings s)
    = Resolved 5558.
Proof. vm_compute. reflexivity. Qed.

Example getNextAvailableAdbPort_no_port :
  let s := @mkState nat Demo.Version 0%nat Demo.emptyInventory in
  outcome (getNextAvailableAdbPort (Demo.attached []) Demo.settings s)
    = Resolved (defaultAdbPort Demo.settings).
Proof. vm_compute. reflexivity. Qed.

(** C7, as it is stated, fails: a name that differs from a listed device
    only in letter case is not resolved, while the display name is. *)
Lemma resolveEmulatorImage_is_case_sensitive :
  let s := @mkState nat Demo.Version 0%nat Demo.emptyInventory in
  listedAVDs Demo.twoDevices Demo.settings s = ["Pixel_XL"; "Nexus_6"; EmptyString]
  /\ Js.toLowerCase "Pixel_XL" = "pixel_xl"
  /\ outcome (resolveEmulatorImage Demo.twoDevices Demo.settings "pixel_xl" s)
     = Resolved None
  /\ outcome (resolveEmulatorImage Demo.twoDevices Demo.settings "Pixel XL" s)
     = Resolved (Some "Pixel_XL").
Proof.
  vm_compute. repeat split.
Qed.

Example resolveEmulatorImage_blank_name :
  let s := @mkState nat Demo.Version 0%nat Demo.emptyInventory in
  listedAVDs (Demo.attached []) Demo.settings s = [EmptyString]
  /\ outcome (resolveEmulatorImage (Demo.attached []) Demo.settings "_" s)
     = Resolved (Some EmptyString)
  /\ outcome (resolveEmulatorImage Demo.twoDevices Demo.settings "_" s)
     = Resolved (Some EmptyString)
  /\ outcome (hasEmulator Demo.twoDevices Demo.settings "_" s) = Resolved true
  /\ outcome (resolveEmulatorImage Demo.twoDevices Demo.settings "Pixel-XL" s)
     = Resolved (Some "Pixel_XL").
Proof.
  vm_compute. repeat split.
Qed.

(** C8, as it is stated, fails: for the profile [nexus_6], which is not
    renamed, the configuration that is written sets the skin name. *)
Lemma unmapped_profile_gets_skin :
  let s := @mkState nat Demo.Version 0%nat Demo.emptyInventory in
  let file := configIniPath Demo.settings "Nexus_6" in
  exists content,
    traceOf (updateEmulatorConfig Demo.nexusConfigured Demo.settings "Nexus_6" s)
      = [WriteFile file content]
    /\ Map_get "hw.device.name" (parseConfig content) = Some "nexus_6"
    /\ Map_get "skin.name" (parseConfig content) = Some "nexus_6".
Proof.
  eexists. vm_compute. repeat split.
Qed.

Lemma updateEmulatorConfig_skin_witness :
  let s := @mkState nat Demo.Version 0%nat Demo.emptyInventory in
  let file := configIniPath Demo.settings "Pixel_XL" in
  let configFile := "hw.device.name=pixel_xl" ++ newline ++ "hw.keyboard=no" ++ newline in
  let written := updatedConfig Demo.settings (parseConfig configFile) in
  traceOf (updateEmulatorConfig Demo.pixelConfigured Demo.settings "Pixel_XL" s)
    = [WriteFile file (serializeConfig written)]
  /\ Map_get "skin.name" written = Some "pixel_xl_silver"
  /\ Map_get "skin.path" written = Some "/sdk/skins/pixel_xl_silver".
Proof.
  intros s file configFile written.
  destruct (updateEmulatorConfig_skin Demo.pixelConfigured Demo.settings "Pixel_XL" s
              configFile "pixel_xl") as [Htrace [_ [Hxl _]]];
    [reflexivity | reflexivity | reflexivity |].
  split; [exact Htrace | exact (Hxl eq_refl)].
Defined.

Example updateEmulatorConfig_renames_pixel :
  let config := [("hw.device.name", "pixel")] in
  Map_get "skin.name" (updatedConfig Demo.settings config) = Some "pixel_silver"
  /\ Map_get "skin.path" (updatedConfig Demo.settings config)
     = Some "/sdk/skins/pixel_silver"
  /\ Map_get "skin.dynamic" (updatedConfig Demo.settings config) = Some "yes"
  /\ Map_get "showDeviceFrame" (updatedConfig Demo.settings config) = Some "yes".
Proof.
  vm_compute. repeat split.
Qed.

Example parseConfig_last_line_wins :
  parseConfig ("a=1" ++ newline ++ "b=2" ++ newline ++ "a=3" ++ newline
               ++ "# a" ++ newline)
  = [("a", "3"); ("b", "2")].
Proof. vm_compute. reflexivity. Qed.

Lemma config_round_trip_witness :
  let s := @mkState JsMap Demo.Version [] Demo.emptyInventory in
  let config := [("a", "1"); ("b", "2")] in
  parseConfig (serializeConfig config) = config
  /\ outcome
       (andThen (writeEmulatorConfig Demo.disk Demo.settings "Pixel_XL" config)
          (fun _ => readEmulatorConfig Demo.disk Demo.settings "Pixel_XL") s)
     = Resolved config.
Proof.
  intros s config.
  apply (config_round_trip Demo.disk Demo.settings "Pixel_XL" config s).
  - unfold distinctKeys. simpl. repeat constructor; simpl; intuition discriminate.
  - reflexivity.
  - reflexivity.
Defined.


Lemma Demo_pixel_quiet launchParams verification verity :
  Js.includes (Js.toLowerCase verification) "error:" = false ->
  Js.includes (Js.toLowerCase verity) "error:" = false ->
  forall command w,
    reportsError
      (gatherOutput
         (fst (runCommand (Demo.pixel launchParams verification verity) command w)))
    = false.
Proof.
  intros Hverification Hverity command w.
  unfold Demo.pixel, Demo.answering, Demo.scripted. cbn [runCommand fst Demo.answer].
  repeat match goal with
         | |- context [String.eqb command ?c] =>
             destruct (String.eqb command c); [try reflexivity|]
         end; try reflexivity.
  - unfold gatherOutput, reportsError. cbn [stdout stderr Js.truthy].
    destruct verification; [reflexivity|].
    cbn [Js.truthy append]. unfold newline. cbn [append andb].
    cbn [Js.toLowerCase Js.includes]. rewrite <- Hverification. reflexivity.
  - unfold gatherOutput, reportsError. cbn [stdout stderr Js.truthy].
    destruct verity; [reflexivity|].
    cbn [Js.truthy append]. unfold newline. cbn [append andb].
    cbn [Js.toLowerCase Js.includes]. rewrite <- Hverity. reflexivity.
Qed.

Lemma mountAsRootWritableSystem_steps_witness :
  let s := @mkState nat Demo.Version 0%nat Demo.emptyInventory in
  let lib := Demo.imports Demo.emptyInventory Demo.pixelDevices in
  let disabled :=
    Demo.pixel "-avd Pixel_XL -writable-system" "verification is already disabled"
      "verity is already disabled" in
  let enabled :=
    Demo.pixel "-avd Pixel_XL -writable-system" "verification is enabled"
      "verity is enabled" in
  (outcome (mountAsRootWritableSystem disabled lib Demo.settings "Pixel XL" s)
     = Resolved 5554
   /\ traceOf (mountAsRootWritableSystem disabled lib Demo.settings "Pixel XL" s)
      = (traceOf (startEmulator disabled Demo.settings "Pixel XL" true true s)
         ++ mountSteps Demo.settings 5554 true true)%list
   /\ ~ In (Exec (adbCommandLine Demo.settings "shell reboot" 5554))
           (mountSteps Demo.settings 5554 true true))
  /\ (outcome (mountAsRootWritableSystem enabled lib Demo.settings "Pixel XL" s)
        = Resolved 5554
      /\ traceOf (mountAsRootWritableSystem enabled lib Demo.settings "Pixel XL" s)
         = (traceOf (startEmulator enabled Demo.settings "Pixel XL" true true s)
            ++ mountSteps Demo.settings 5554 false false)%list).
Proof.
  intros s lib disabled enabled.
  pose (device := mkAndroidVirtualDevice "Pixel_XL" "Google APIs" (Demo.api 30)).
  split.
  - destruct (mountAsRootWritableSystem_steps disabled lib Demo.settings
                ltac:(simpl; lia)
                (Demo_pixel_quiet "-avd Pixel_XL -writable-system"
                   "verification is already disabled" "verity is already disabled"
                   eq_refl eq_refl)
                (fun _ _ _ => eq_refl)
                "Pixel XL" s 5554 _ _ device (Demo.api 29) true true
                eq_refl (fun _ => eq_refl) eq_refl eq_refl
                (fun _ => eq_refl) (fun _ => eq_refl))
      as (Hport & Htrace & _ & Hreboot & _).
    split; [exact Hport|]. split; [exact Htrace | exact Hreboot].
  - destruct (mountAsRootWritableSystem_steps enabled lib Demo.settings
                ltac:(simpl; lia)
                (Demo_pixel_quiet "-avd Pixel_XL -writable-system"
                   "verification is enabled" "verity is enabled" eq_refl eq_refl)
                (fun _ _ _ => eq_refl)
                "Pixel XL" s 5554 _ _ device (Demo.api 29) false false
                eq_refl (fun _ => eq_refl) eq_refl eq_refl
                (fun _ => eq_refl) (fun _ => eq_refl))
      as (Hport & Htrace & _).
    split; [exact Hport | exact Htrace].
Defined.

Ltac compare_cases :=
  repeat match goal with
         | H : context [?x ?= ?y] |- _ =>
             destruct (Z.compare_spec x y); simpl in *; try lia
         | |- context [?x ?= ?y] =>
             destruct (Z.compare_spec x y); simpl in *; try lia
         end.

Lemma Demo_compare_antisym (a b : Demo.Version) :
  Z.sgn (Demo.compare a b) = - Z.sgn (Demo.compare b a).
Proof.
  destruct a as [a1 a2 a3], b as [b1 b2 b3].
  unfold Demo.compare, Demo.cmpZ. simpl.
  generalize (Demo.orZero a2) (Demo.orZero a3) (Demo.orZero b2) (Demo.orZero b3).
  intros. compare_cases.
Qed.

Lemma Demo_compare_trans (a b c : Demo.Version) :
  0 <= Demo.compare a b -> 0 <= Demo.compare b c -> 0 <= Demo.compare a c.
Proof.
  destruct a as [a1 a2 a3], b as [b1 b2 b3], c as [c1 c2 c3].
  unfold Demo.compare, Demo.cmpZ. simpl.
  generalize (Demo.orZero a2) (Demo.orZero a3) (Demo.orZero b2) (Demo.orZero b3)
             (Demo.orZero c2) (Demo.orZero c3).
  intros ? ? ? ? ? ? Hab Hbc. compare_cases.
Qed.

Lemma fetchSupportedAndroidAPIPackage_newest_witness :
  let s := @mkState nat Demo.Version 0%nat Demo.inventory in
  let lib := Demo.imports Demo.inventory [] in
  let host := Demo.attached [] in
  outcome (fetchAllAvailableApiPackages host lib Demo.settings true s)
    = Resolved [Demo.platform 31 "Android SDK Platform 31";
                Demo.platform 31 "Android SDK Platform 31, rev 2";
                Demo.platform 30 "Android SDK Platform 30";
                Demo.platform 29 "Android SDK Platform 29"]
  /\ outcome (fetchSupportedAndroidAPIPackage host lib Demo.settings None s)
     = Resolved (Demo.platform 31 "Android SDK Platform 31")
  /\ outcome (fetchSupportedAndroidAPIPackage host lib Demo.settings (Some "30") s)
     = Resolved (Demo.platform 30 "Android SDK Platform 30")
  /\ outcome (fetchSupportedAndroidAPIPackage host lib Demo.settings (Some "28") s)
     = Rejected (SfdxError (noPackageForLevel (Some "28"))).
Proof.
  intros s lib host.
  destruct (fetchSupportedAndroidAPIPackage_newest host lib Demo.settings s (Demo.api 23))
    as (Hall & _ & _ & _ & Hnewest & _ & Hlevel).
  - discriminate.
  - reflexivity.
  - reflexivity.
  - discriminate.
  - exact Demo_compare_antisym.
  - exact Demo_compare_trans.
  - split; [exact Hall|].
    split; [exact Hnewest|].
    split.
    + apply (Hlevel "30" (Demo.api 30)); reflexivity.
    + apply (Hlevel "28" (Demo.api 28)); reflexivity.
Defined.

Lemma executeAdbCommandWithRetry_recovers_witness :
  let s := @mkState nat Demo.Version 0%nat Demo.emptyInventory in
  let adbCmd := adbCommandLine Demo.settings "root" 5554 in
  let run := executeAdbCommandWithRetry Demo.flaky Demo.settings "root" 5554 3 1000 s in
  outcome run = Resolved "ready"
  /\ traceOf run = retryTrace adbCmd 1000 2
  /\ countExec adbCmd (traceOf run) = 3%nat.
Proof.
  intros s adbCmd run.
  apply (executeAdbCommandWithRetry_recovers Demo.flaky Demo.settings "root" 5554 3 1000
           2 s).
  - simpl. lia.
  - lia.
  - intros j Hj. destruct j as [|[|j]]; [reflexivity | reflexivity | lia].
  - reflexivity.
Defined.

Lemma startEmulator_invalid_witness :
  let s := @mkState nat Demo.Version 0%nat Demo.emptyInventory in
  startEmulator Demo.twoDevices Demo.settings "Pixel_7" true true s
  = (Rejected (SfdxError "Invalid emulator: Pixel_7"),
     resolvedIn Demo.twoDevices Demo.settings s,
     [Exec (getEmulatorCommand Demo.settings ++ " -list-avds")]).
Proof.
  intros s.
  apply (startEmulator_invalid Demo.twoDevices Demo.settings "Pixel_7" true true s).
  reflexivity.
Defined.

Lemma startEmulator_launches_witness :
  let s := @mkState nat Demo.Version 0%nat Demo.emptyInventory in
  let run := startEmulator Demo.twoDevices Demo.settings "Nexus 6" true false s in
  outcome run = Resolved 5572
  /\ In (Spawn "/sdk/emulator/emulator @Nexus_6 -port 5572 -writable-system") (traceOf run)
  /\ (forall p, ~ In (Exec (stopCommand Demo.settings p)) (traceOf run)).
Proof.
  intros s run.
  destruct (startEmulator_launches Demo.twoDevices Demo.settings "Nexus 6" true s
              "Nexus_6" 5572 eq_refl eq_refl eq_refl) as (Hport & Htrace & Hstop).
  split; [exact Hport|]. split; [|exact Hstop].
  unfold run. rewrite Htrace. cbn. auto 10.
Defined.

Lemma mountAsRootWritableSystem_before_29_witness :
  let s := @mkState nat Demo.Version 0%nat Demo.emptyInventory in
  let lib := Demo.imports Demo.emptyInventory Demo.oldPixelDevices in
  let host :=
    Demo.pixel "-avd Pixel_XL -writable-system" "verification is enabled"
      "verity is enabled" in
  let adb command := Exec (adbCommandLine Demo.settings command 5554) in
  outcome (mountAsRootWritableSystem host lib Demo.settings "Pixel XL" s) = Resolved 5554
  /\ traceOf (mountAsRootWritableSystem host lib Demo.settings "Pixel XL" s)
     = (traceOf (startEmulator host Demo.settings "Pixel XL" true true s)
        ++ [adb "root";
            Exec (getEmulatorCommand Demo.settings ++ " -list-avds");
            Exec (getAvdManagerCommand Demo.settings ++ " list avd");
            adb "remount"])%list.
Proof.
  intros s lib host adb.
  pose (device := mkAndroidVirtualDevice "Pixel_XL" "Google APIs" (Demo.api 28)).
  apply (mountAsRootWritableSystem_before_29 host lib Demo.settings
           ltac:(simpl; lia)
           (Demo_pixel_quiet "-avd Pixel_XL -writable-system"
              "verification is enabled" "verity is enabled" eq_refl eq_refl)
           "Pixel XL" s 5554 _ _ device (Demo.api 29)
           eq_refl (fun _ => eq_refl) eq_refl eq_refl).
Defined.

Lemma mountAsRootWritableSystem_unknown_device_witness :
  let s := @mkState nat Demo.Version 0%nat Demo.emptyInventory in
  let lib := Demo.imports Demo.emptyInventory [] in
  let host :=
    Demo.pixel "-avd Pixel_XL -writable-system" "verification is enabled"
      "verity is enabled" in
  outcome (mountAsRootWritableSystem host lib Demo.settings "Pixel XL" s)
  = Rejected (SfdxError "Unable to determine device info: Port = 5554 , Name = Pixel XL").
Proof.
  intros s lib host.
  destruct (mountAsRootWritableSystem_unknown_device host lib Demo.settings
              ltac:(simpl; lia)
              (Demo_pixel_quiet "-avd Pixel_XL -writable-system"
                 "verification is enabled" "verity is enabled" eq_refl eq_refl)
              "Pixel XL" s 5554 _ _ eq_refl (fun _ => eq_refl)) as [Hout _].
  exact Hout.
Defined.

Lemma resolveEmulatorImage_fixpoint_witness :
  let s := @mkState nat Demo.Version 0%nat Demo.emptyInventory in
  outcome (resolveEmulatorImage Demo.twoDevices Demo.settings "Pixel XL" s)
    = Resolved (Some "Pixel_XL")
  /\ resolveEmulatorImage Demo.twoDevices Demo.settings "Pixel_XL" s
     = resolveEmulatorImage Demo.twoDevices Demo.settings "Pixel XL" s.
Proof.
  intros s. split; [reflexivity|].
  apply (resolveEmulatorImage_fixpoint Demo.twoDevices Demo.settings "Pixel XL" s
           "Pixel_XL").
  reflexivity.
Defined.

Lemma nextPort_four_digits_witness :
  nextPort Demo.settings [5556; 5554] = 5558
  /\ In (nextPort Demo.settings [5556; 5554] - 2) [5556; 5554]
  /\ (forall p, In p [5556; 5554] -> p <= nextPort Demo.settings [5556; 5554] - 2).
Proof.
  split; [reflexivity|].
  apply (nextPort_four_digits Demo.settings [5556; 5554]).
  - discriminate.
  - intros p [<-|[<-|[]]]; lia.
Defined.
